(** * edi: the Debian package downloader ([edi/lib/debhelpers.py])

    A shallow embedding of [PackageDownloader] and the properties of its
    [download()] pipeline: release retrieval, signature check, index
    lookup, checksum verification and payload download. *)

From Stdlib Require Import String Ascii List ZArith Lia Bool.
From Stdlib.Strings Require Import Byte.
From stdpp Require Import base option list gmap strings.

Local Open Scope string_scope.
Local Open Scope list_scope.
Local Open Scope Z_scope.

(** ** Python values *)

(** [bytes] objects. *)
Abbreviation bytes := (list byte).

(** Python's truth value testing ([if x:], [not x]). *)
Class Truthy (A : Type) := truthy : A → bool.
Global Hint Mode Truthy ! : typeclass_instances.

Global Instance string_truthy : Truthy string :=
  λ s, match s with EmptyString => false | String _ _ => true end.
Global Instance list_truthy {A} : Truthy (list A) :=
  λ l, match l with [] => false | _ :: _ => true end.
Global Instance option_truthy {A} `{Truthy A} : Truthy (option A) :=
  λ o, match o with None => false | Some a => truthy a end.

(** ** Strings *)

Definition newline : ascii := "010"%char.

Fixpoint all_chars (p : ascii → bool) (s : string) : bool :=
  match s with
  | EmptyString => true
  | String c s' => p c && all_chars p s'
  end.

(** A string of ASCII characters only; a [str] is held in UTF-8, so every
    other character has bytes from 128 on. *)
Definition is_ascii (s : string) : bool :=
  all_chars (λ c, (nat_of_ascii c <? 128)%nat) s.

(** What [str.lower()] does to the letters A-Z. *)
Definition lower_char (c : ascii) : ascii :=
  let n := nat_of_ascii c in
  if ((65 <=? n) && (n <=? 90))%nat then ascii_of_nat (n + 32) else c.

Fixpoint ascii_lower (s : string) : string :=
  match s with
  | EmptyString => EmptyString
  | String c s' => String (lower_char c) (ascii_lower s')
  end.

(** The built-in [str.lower()]. On a string of ASCII characters it lowers
    A-Z and keeps the rest; which other letters it lowers, and to what, is
    the interpreter's table of Unicode. *)
Class Python := {
  lower : string → string;
  lower_ascii : ∀ s, is_ascii s = true → lower s = ascii_lower s
}.

(** [s.replace(a, b)] for single characters. *)
Fixpoint replace_char (a b : ascii) (s : string) : string :=
  match s with
  | EmptyString => EmptyString
  | String c s' => String (if Ascii.eqb c a then b else c) (replace_char a b s')
  end.

(** [s.rstrip(c)]: drop every trailing [c]. *)
Fixpoint rstrip (c : ascii) (s : string) : string :=
  match s with
  | EmptyString => EmptyString
  | String d s' =>
      match rstrip c s' with
      | EmptyString => if Ascii.eqb d c then EmptyString else String d EmptyString
      | r => String d r
      end
  end.

(** [os.path.join(a, b)] on POSIX for two components. *)
Definition ends_with_slash (s : string) : bool :=
  match String.get (String.length s - 1) s with
  | Some c => Ascii.eqb c "/"
  | None => false
  end.

Definition path_join (a b : string) : string :=
  if String.prefix "/" b then b
  else if negb (truthy a) || ends_with_slash a then a +:+ b
  else a +:+ "/" +:+ b.

(** *** The regular expressions of the module *)

(** [re.search('^' + pat, s, re.MULTILINE)] for a literal [pat]: the
    literal occurs at the start of [s] or right after a newline. [bol]
    tells whether the current position is the beginning of a line. *)
Fixpoint search_bol (pat : string) (bol : bool) (s : string) : bool :=
  (bol && String.prefix pat s) ||
  match s with
  | EmptyString => false
  | String c s' => search_bol pat (Ascii.eqb c newline) s'
  end.

Definition search_line_start (pat s : string) : bool := search_bol pat true s.

(** The character class [[a-z2]]. *)
Definition compression_char (c : ascii) : bool :=
  let n := nat_of_ascii c in
  ((97 <=? n) && (n <=? 122))%nat || Ascii.eqb c "2".

(** [\.*] is greedy; as [.] is outside [[a-z2]] no shorter run of dots can
    let the rest of the pattern match. *)
Fixpoint skip_dots (s : string) : string :=
  match s with
  | String "." s' => skip_dots s'
  | _ => s
  end.

(** [([a-z2]{1,3})$]: one to three characters of the class, then the end
    of the string or a single newline that ends the string. *)
Definition match_compression (s : string) : option string :=
  let body :=
    match String.get (String.length s - 1) s with
    | Some c => if Ascii.eqb c newline
                then String.substring 0 (String.length s - 1) s else s
    | None => s
    end in
  if ((1 <=? String.length body) && (String.length body <=? 3))%nat
     && all_chars compression_char body
  then Some body else None.

(** What follows the group [( .* )] in
    [^( .* )Packages\.*([a-z2]{1,3})$]. *)
Definition match_packages_tail (s : string) : option string :=
  if String.prefix "Packages" s
  then match_compression (skip_dots (String.substring 8 (String.length s - 8) s))
  else None.

(** [re.match('^( .* )Packages\.*([a-z2]{1,3})$', s)]: the groups of the
    match. [( .* )] is greedy, so the longest prefix that lets the rest match
    is tried first, and [.] does not match a newline. *)
Fixpoint match_packages_name (s : string) : option (string * string) :=
  let here := match match_packages_tail s with
              | Some g2 => Some (EmptyString, g2)
              | None => None
              end in
  match s with
  | EmptyString => here
  | String c s' =>
      if Ascii.eqb c newline then here
      else match match_packages_name s' with
           | Some (g1, g2) => Some (String c g1, g2)
           | None => here
           end
  end.

(** [.*deb] matched greedily at the start of [s]: the longest prefix of
    the first line that ends in [deb]. *)
Fixpoint match_dot_star_deb (s : string) : option string :=
  let here := if String.prefix "deb" s then Some "deb" else None in
  match s with
  | EmptyString => here
  | String c s' =>
      if Ascii.eqb c newline then here
      else match match_dot_star_deb s' with
           | Some g => Some (String c g)
           | None => here
           end
  end.

(** [re.match('.*/(.*deb)', s)]: group 1 of the match. *)
Fixpoint match_deb_name (s : string) : option string :=
  match s with
  | EmptyString => None
  | String c s' =>
      let here := if Ascii.eqb c "/" then match_dot_star_deb s' else None in
      if Ascii.eqb c newline then here
      else match match_deb_name s' with
           | Some g => Some g
           | None => here
           end
  end.

(** ** Deb822 mappings *)

(** [debian.deb822.Deb822Dict], the class of every paragraph that
    [iter_paragraphs] yields and of every row of a multi-valued field: a
    mapping that compares its keys without regard to case. A key is held
    and looked up in its lower-cased form, so [d['Package']],
    [d.get('package')] and [d.get('PACKAGE')] read the same field. *)
Record Deb822Dict (V : Type) := Deb822 { fields : gmap string V }.
Global Arguments Deb822 {V} fields.
Global Arguments fields {V} d.

Global Instance Deb822Dict_eq_dec {V} `{EqDecision V} : EqDecision (Deb822Dict V).
Proof. solve_decision. Defined.
Global Instance Deb822Dict_empty {V} : Empty (Deb822Dict V) := Deb822 ∅.
(** [d.get(key)], and [d[key]] where the key is present. *)
Global Instance Deb822Dict_lookup `{Python} {V} : Lookup string V (Deb822Dict V) :=
  λ key d, fields d !! lower key.
(** [d[key] = value]. *)
Global Instance Deb822Dict_insert `{Python} {V} : Insert string V (Deb822Dict V) :=
  λ key value d, Deb822 (<[lower key := value]> (fields d)).
Global Instance Deb822Dict_singleton `{Python} {V}
    : SingletonM string V (Deb822Dict V) :=
  λ key value, Deb822 {[lower key := value]}.
(** A mapping is true when it has at least one key. *)
Global Instance Deb822Dict_truthy {V} : Truthy (Deb822Dict V) :=
  λ d, negb (bool_decide (fields d = ∅)).

(** A paragraph of a control file, or one row of a checksum section of the
    release document. *)
Abbreviation item := (Deb822Dict string).

(** The first paragraph of the release document, restricted to its
    multi-valued fields: each maps to the list of its rows. *)
Abbreviation release_paragraph := (Deb822Dict (list item)).

(** The paragraph that the parser builds from the fields of a stanza as
    they are written, first field first. *)
Definition paragraph `{Python} (stanza : list (string * string)) : item :=
  foldl (λ d kv, <[kv.1 := kv.2]> d) ∅ stanza.

(** ** Outcomes, the world and the monad of the methods *)

(** The Python exceptions that the module can raise without catching. *)
Inductive exception :=
| NameError (name : string)
| KeyError (key : string)
| AttributeError (msg : string)
| TypeError (msg : string)
| FileNotFoundError (path : string)
| PermissionError (path : string)
| RequestException (msg : string)
| StopIteration.

(** How a call ends: it returns, it leaves through
    [print_error_and_exit(msg)], or an exception propagates. *)
Inductive outcome (A : Type) :=
| Return (a : A)
| Exit (msg : string)
| Raise (e : exception).
Global Arguments Return {A} a.
Global Arguments Exit {A} msg.
Global Arguments Raise {A} e.

Inductive level := INFO | WARNING.

(** What a call can observe and change: the URLs that the module has
    passed to [requests.get] so far (oldest first), the files on disk and
    the records handed to [logging]. *)
Record world := World {
  requests : list string;
  files : gmap string (list byte);
  logged : list (level * string)
}.

Definition M (A : Type) : Type := world → outcome A * world.

Global Instance M_ret : MRet M := λ A a w, (Return a, w).
Global Instance M_bind : MBind M := λ A B f m w,
  match m w with
  | (Return a, w') => f a w'
  | (Exit msg, w') => (Exit msg, w')
  | (Raise e, w') => (Raise e, w')
  end.

Definition raise {A} (e : exception) : M A := λ w, (Raise e, w).

(** Lifts the outcome of a collaborator that does not touch the world. *)
Definition lift {A} (o : outcome A) : M A := λ w, (o, w).

(** Modelled from the spec: [edi.lib.helpers.print_error_and_exit] is not
    among the sources; section 9 of the design calls it a global
    print-and-terminate helper, so the call ends here with the message. *)
Definition print_error_and_exit {A} (msg : string) : M A := λ w, (Exit msg, w).

(** The error kinds of the design, as the messages the module exits with. *)
Definition RepositoryUnreachable {A} (url : string) : outcome A :=
  Exit ("Unable to fetch archive element '" +:+ url +:+ "'.").
Definition NoChecksumSection {A} : outcome A :=
  Exit "Neither SHA512 nor SHA256 section found in release file.".
Definition ChecksumMismatch {A} : outcome A :=
  Exit "Checksum mismatch on repository item.".
Definition InvalidRepositorySpec {A} (o : outcome A) : Prop :=
  o = Exit "Missing argument 'repository'." ∨
  o = Exit "Missing (non empty) list 'architectures'.".

(** The three ways in which the module changes the world. *)
Definition add_request (url : string) (w : world) : world :=
  World (requests w ++ [url]) (files w) (logged w).
Definition add_file (path : string) (data : bytes) (w : world) : world :=
  World (requests w) (<[path := data]> (files w)) (logged w).
Definition add_log (l : level) (msg : string) (w : world) : world :=
  World (requests w) (files w) (logged w ++ [(l, msg)]).

(** [logging.info] and [logging.warning]. *)
Definition logging (l : level) (msg : string) : M unit := λ w,
  (Return (), add_log l msg w).

(** [open(path)] followed by reading the whole file. *)
Definition read_file (path : string) : M bytes := λ w,
  match files w !! path with
  | Some d => (Return d, w)
  | None => (Raise (FileNotFoundError path), w)
  end.

(** [d[key]] on a paragraph. *)
Definition getitem `{Python} (d : item) (key : string) : M string :=
  match d !! key with
  | Some v => mret v
  | None => raise (KeyError key)
  end.

(** ** The repository line *)

(** The attributes of [aptsources.sourceslist.SourceEntry] that the module
    reads. *)
Record SourceEntry_t := {
  uri : string;
  dist : string;
  comps : list string
}.

Record PackageDownloader := {
  _repository : option string;
  _repository_key : option string;
  _architectures : list string;
  _source : SourceEntry_t;
  _compressions : list string;
  _checksum_algorithms : list string
}.

(** ** The downloader *)

(** *** Collaborators outside the module *)

Class Collaborators := {
  python :: Python;
  (** [requests.get(url)]: the exception that it raises when no reply
      arrives (no route, a refused connection, a timeout), or else the
      status code and the body of the reply. *)
  connection_error : string → option exception;
  http : string → Z * bytes;
  (** [open(path, mode='wb')]: the exception that it raises when the file
      cannot be opened for writing (its directory is missing, or the
      permission). *)
  open_error : string → option exception;
  (** [hashlib.new(name)] fed with the data, then [hexdigest()]. *)
  hexdigest : string → bytes → string;
  (** [edi.lib.archivehelpers.decompress]. *)
  decompress : bytes → outcome bytes;
  (** [debian.deb822.Release.iter_paragraphs] and
      [debian.deb822.Packages.iter_paragraphs] on the content of a file. *)
  Release_iter_paragraphs : bytes → list release_paragraph;
  Packages_iter_paragraphs : bytes → list item;
  (** [aptsources.sourceslist.SourceEntry(line)]. *)
  SourceEntry : string → SourceEntry_t;
  (** [edi.lib.keyhelpers]. *)
  fetch_repository_key : string → outcome string;
  build_keyring : string → string → string → outcome string;
  (** The standard output of [edi.lib.shellhelpers.run(cmd, check=False)]
      for the gpg command line, given the files on disk. *)
  run_gpg : list string → gmap string (list byte) → string;
  (** The directory that [tempfile.TemporaryDirectory()] creates. *)
  mkdtemp : gmap string (list byte) → string
}.

Section downloader.

Context `{Collaborators}.

(** *** [__init__] *)

Definition __init__ (repository repository_key : option string)
    (architectures : option (list string)) : M PackageDownloader :=
  if negb (truthy repository) then
    print_error_and_exit "Missing argument 'repository'."
  else if negb (truthy architectures) then
    print_error_and_exit "Missing (non empty) list 'architectures'."
  else
    let source := SourceEntry (default "" repository) in
    mret {| _repository := repository;
            _repository_key := repository_key;
            _architectures := default [] architectures;
            _source := {| uri := rstrip "/" (uri source);
                          dist := dist source;
                          comps := comps source |};
            _compressions := ["gz"; "bz2"; "xz"];
            _checksum_algorithms := ["SHA512"; "SHA256"] |}.

(** *** Fetching *)

Definition requests_get (url : string) : M (Z * bytes) := λ w,
  match connection_error url with
  | Some e => (Raise e, add_request url w)
  | None => (Return (http url), add_request url w)
  end.

(** [with open(path, mode='wb') as f: f.write(data)]. A file that cannot
    be opened is left as it is; opening truncates the file before [write]
    rejects [None]. *)
Definition write_file (path : string) (data : option bytes) : M unit := λ w,
  match open_error path with
  | Some e => (Raise e, w)
  | None =>
      match data with
      | Some d => (Return (), add_file path d w)
      | None => (Raise (TypeError "a bytes-like object is required, not 'NoneType'"),
                 add_file path [] w)
      end
  end.

(** The static method [_fetch_archive_element(url, check=True)]; it
    replaces the method of the same name defined before it in the class
    body. *)
Definition _fetch_archive_element (url : string) (check : bool)
    : M (option bytes) :=
  req ← requests_get url;
  if negb (req.1 =? 200) then
    if check then
      print_error_and_exit ("Unable to fetch archive element '" +:+ url +:+ "'.")
    else mret None
  else mret (Some req.2).

Definition _try_fetch_archive_element (url : string) : M (option bytes) :=
  _fetch_archive_element url false.

(** *** [_parse_release_file] *)

Definition packages_filter (self : PackageDownloader) : list string :=
  component ← comps (_source self);
  architecture ← _architectures self;
  compression ← _compressions self;
  [component +:+ "/binary-" +:+ architecture +:+ "/Packages." +:+ compression].

(** [element.get('name') in packages_filter]. *)
Definition name_in (filter_ : list string) (element : item) : bool :=
  match element !! "name" with
  | Some n => bool_decide (n ∈ filter_)
  | None => false
  end.

Definition _parse_release_file (self : PackageDownloader)
    (release_file : string) : M (list item) :=
  content ← read_file release_file;
  match Release_iter_paragraphs content with
  | [] => raise StopIteration
  | main_content :: _ =>
      let section := main_content !! "SHA512" in
      let section :=
        if negb (truthy section) then main_content !! "SHA256" else section in
      if negb (truthy section) then
        print_error_and_exit
          "Neither SHA512 nor SHA256 section found in release file."
      else
        mret (List.filter (name_in (packages_filter self)) (default [] section))
  end.

(** *** [_verify_signature] *)

Definition gpg_cmd (homedir keyring signed_file : string)
    (detached_signature : option string) : list string :=
  ["gpg"] ++ ["--homedir"; homedir] ++ ["--weak-digest"; "SHA1"]
    ++ ["--weak-digest"; "RIPEMD160"]
    ++ ["--no-default-keyring"; "--keyring"; keyring]
    ++ ["--status-fd"; "1"] ++ ["--verify"]
    ++ (if truthy detached_signature then [default "" detached_signature] else [])
    ++ [signed_file].

Definition run (cmd : list string) : M string := λ w,
  (Return (run_gpg cmd (files w)), w).

Definition _verify_signature (homedir keyring signed_file : string)
    (detached_signature : option string) : M bool :=
  stdout ← run (gpg_cmd homedir keyring signed_file detached_signature);
  logging INFO stdout;;
  let goodsig := search_line_start "[GNUPG:] GOODSIG" stdout in
  let validsig := search_line_start "[GNUPG:] VALIDSIG" stdout in
  if goodsig && validsig then
    logging INFO "Signature check ok!";; mret true
  else
    logging INFO "Signature check failed!";; mret false.

(** *** [_verify_checksum] *)

(** The [for algorithm in self._checksum_algorithms] loop; the statement
    after the loop formats [package_item['name']], a name bound
    nowhere. *)
Fixpoint _verify_checksum_loop (data : option bytes) (it : item)
    (algorithms : list string) : M unit :=
  match algorithms with
  | [] => raise (NameError "package_item")
  | algorithm :: rest =>
      let checksum := it !! algorithm in
      let checksum :=
        if negb (truthy checksum) then it !! lower algorithm else checksum in
      if truthy checksum then
        match data with
        | None => raise (TypeError "object supporting the buffer API required")
        | Some d =>
            if negb (String.eqb (hexdigest (lower algorithm) d) (default "" checksum))
            then print_error_and_exit "Checksum mismatch on repository item."
            else mret ()
        end
      else _verify_checksum_loop data it rest
  end.

Definition _verify_checksum (self : PackageDownloader) (data : option bytes)
    (it : item) : M unit :=
  _verify_checksum_loop data it (_checksum_algorithms self).

(** *** [_find_package_in_package_files] *)

(** [for section in Packages.iter_paragraphs(f): if section['Package'] ==
    package_name: return section]. *)
Fixpoint scan_paragraphs (package_name : string) (sections : list item)
    : M (option item) :=
  match sections with
  | [] => mret None
  | section :: rest =>
      p ← getitem section "Package";
      if String.eqb p package_name then mret (Some section)
      else scan_paragraphs package_name rest
  end.

(** How one turn of the [for package_file in package_files] loop ends:
    the loop goes on (through [continue] or the end of the body) with the
    list [downloaded_package_prefix], or the method returns a section. *)
Inductive flow :=
| Continue (downloaded_package_prefix : list string)
| ReturnSection (section : item).

(** The body of the loop. A match of the pattern always has two groups,
    so of the test [not match or not len(match.groups()) <= 2] only the
    first part can hold. The spooled temporary file only carries the
    decompressed data to the parser. *)
Definition _find_package_body (self : PackageDownloader) (package_name : string)
    (package_file : item) (downloaded_package_prefix : list string) : M flow :=
  name ← getitem package_file "name";
  match match_packages_name name with
  | None =>
      print_error_and_exit
        ("Error parsing package name string " +:+ name +:+ ".")
  | Some (group1, _) =>
      let prefix := replace_char "/" "_" group1 in
      if bool_decide (prefix ∈ downloaded_package_prefix) then
        mret (Continue downloaded_package_prefix)
      else
        let package_url :=
          uri (_source self) +:+ "/dists/" +:+ dist (_source self)
            +:+ "/" +:+ name in
        package_file_data ← _try_fetch_archive_element package_url;
        if truthy package_file_data then
          _verify_checksum self package_file_data package_file;;
          let downloaded_package_prefix :=
            (downloaded_package_prefix ++ [prefix])%list in
          decompressed_package_data ←
            lift (decompress (default [] package_file_data));
          found ← scan_paragraphs package_name
                    (Packages_iter_paragraphs decompressed_package_data);
          match found with
          | Some section => mret (ReturnSection section)
          | None => mret (Continue downloaded_package_prefix)
          end
        else
          mret (Continue downloaded_package_prefix)
  end.

Fixpoint _find_package_loop (self : PackageDownloader) (package_name : string)
    (package_files : list item) (downloaded_package_prefix : list string)
    : M (option item) :=
  match package_files with
  | [] => mret None
  | package_file :: rest =>
      step ← _find_package_body self package_name package_file
               downloaded_package_prefix;
      match step with
      | Continue downloaded_package_prefix =>
          _find_package_loop self package_name rest downloaded_package_prefix
      | ReturnSection section => mret (Some section)
      end
  end.

Definition _find_package_in_package_files (self : PackageDownloader)
    (package_name : string) (package_files : list item) : M (option item) :=
  _find_package_loop self package_name package_files [].

(** *** [_download_package] *)

Definition _download_package (self : PackageDownloader) (package : item)
    (dest : string) : M string :=
  full_name ← getitem package "Filename";
  match match_deb_name full_name with
  | None => raise (AttributeError "'NoneType' object has no attribute 'group'")
  | Some package_name =>
      let deb_url := uri (_source self) +:+ "/" +:+ full_name in
      package_data ← _fetch_archive_element deb_url true;
      _verify_checksum self package_data package;;
      let package_file := path_join dest package_name in
      write_file package_file package_data;;
      mret package_file
  end.

(** *** [download] *)

(** Whether [path] lies below the directory [dir]. *)
Definition under (dir path : string) : bool :=
  String.prefix (path_join dir "") path.

(** Removing a directory with everything below it. *)
Definition remove_tree (dir : string) (w : world) : world :=
  World (requests w)
        (filter (λ kv : string * bytes, ¬ Is_true (under dir kv.1)) (files w))
        (logged w).

(** [with tempfile.TemporaryDirectory() as tempdir]: the directory is
    removed however the body ends. *)
Definition TemporaryDirectory {A} (body : string → M A) : M A := λ w,
  let tempdir := mkdtemp (files w) in
  let (r, w') := body tempdir w in
  (r, remove_tree tempdir w').

(** Lines 179-197: the release document and, on the [Release] path with a
    key, its detached signature, stored below [tempdir]. Returns
    [release_file] and [signature_file]. *)
Definition base_url (self : PackageDownloader) : string :=
  uri (_source self) +:+ "/dists/" +:+ dist (_source self).

Definition download_release (self : PackageDownloader) (tempdir : string)
    : M (string * option string) :=
  let base_url := base_url self in
  inrelease_data ← _try_fetch_archive_element (base_url +:+ "/InRelease");
  let release_file := path_join tempdir "InRelease" in
  let signature_file : option string := None in
  if truthy inrelease_data then
    write_file release_file inrelease_data;;
    mret (release_file, signature_file)
  else
    let release_file := path_join tempdir "Release" in
    let signature_file := Some (path_join tempdir "Release.gpg") in
    release_data ← _fetch_archive_element (base_url +:+ "/Release") true;
    write_file release_file release_data;;
    (if truthy (_repository_key self) then
       signature_data ← _fetch_archive_element (base_url +:+ "/Release.gpg") true;
       write_file (default "" signature_file) signature_data
     else mret ());;
    mret (release_file, signature_file).

(** Lines 199-206: the signature check, or the warning when no key is
    configured. *)
Definition download_authenticate (self : PackageDownloader)
    (package_name tempdir release_file : string)
    (signature_file : option string) : M unit :=
  if truthy (_repository_key self) then
    key_data ← lift (fetch_repository_key (default "" (_repository_key self)));
    keyring ← lift (build_keyring tempdir "trusted.gpg" key_data);
    ok ← _verify_signature tempdir keyring release_file signature_file;
    if negb ok then print_error_and_exit "Signature check failed!"
    else mret ()
  else
    logging WARNING ("Warning: Package " +:+ package_name
                       +:+ " will get downloaded without verification!").

(** Lines 208-214: index lookup and payload download. *)
Definition download_locate_and_fetch (self : PackageDownloader)
    (package_name release_file dest : string) : M string :=
  package_files ← _parse_release_file self release_file;
  requested_package ←
    _find_package_in_package_files self package_name package_files;
  if negb (truthy requested_package) then
    print_error_and_exit ("Package " +:+ package_name +:+ " not found.")
  else
    _download_package self (default ∅ requested_package) dest.

Definition download (self : PackageDownloader) (package_name : option string)
    (dest : string) : M string :=
  if negb (truthy package_name) then
    print_error_and_exit "Missing argument package_name!"
  else
    let package_name := default "" package_name in
    TemporaryDirectory (λ tempdir,
      '(release_file, signature_file) ← download_release self tempdir;
      download_authenticate self package_name tempdir release_file signature_file;;
      download_locate_and_fetch self package_name release_file dest).

End downloader.


(** ** Notions used to state the properties *)

(** The algorithm and the digest that [_verify_checksum] compares the data
    with: the first algorithm of the list whose field holds a non-empty
    value, looked up under the name of the algorithm and then under its
    lower-cased name as the code does (on a Deb822 mapping both read the
    same field). *)
Fixpoint recorded_checksum `{Python} (algorithms : list string) (it : item)
    : option (string * string) :=
  match algorithms with
  | [] => None
  | algorithm :: rest =>
      match it !! algorithm with
      | Some (String c s) => Some (algorithm, String c s)
      | _ =>
          match it !! lower algorithm with
          | Some (String c s) => Some (algorithm, String c s)
          | _ => recorded_checksum rest it
          end
      end
  end.

(** The candidates of [package_files] that the loop of
    [_find_package_in_package_files] passes over one after the other
    without returning or failing: the list of prefixes and the world it
    reaches, if every turn ends in [Continue]. *)
Fixpoint run_candidates `{Collaborators} (self : PackageDownloader)
    (package_name : string) (package_files : list item)
    (downloaded_package_prefix : list string) (w : world)
    : option (list string * world) :=
  match package_files with
  | [] => Some (downloaded_package_prefix, w)
  | package_file :: rest =>
      match _find_package_body self package_name package_file
              downloaded_package_prefix w with
      | (Return (Continue downloaded_package_prefix), w') =>
          run_candidates self package_name rest downloaded_package_prefix w'
      | _ => None
      end
  end.

(** The request for [url] gets a reply, whatever its status. *)
Definition answered `{Collaborators} (url : string) : Prop :=
  connection_error url = None.

(** What a request for [url] hands to the caller of
    [_try_fetch_archive_element]: the body of a reply with status 200. *)
Definition served `{Collaborators} (url : string) : option bytes :=
  match connection_error url with
  | Some _ => None
  | None => if (http url).1 =? 200 then Some (http url).2 else None
  end.


(** The URL of an index file named in the release document. *)
Definition index_url (self : PackageDownloader) (name : string) : string :=
  uri (_source self) +:+ "/dists/" +:+ dist (_source self) +:+ "/" +:+ name.

(** The URL of the payload of a control entry with the given [Filename]. *)
Definition payload_url (self : PackageDownloader) (full_name : string) : string :=
  uri (_source self) +:+ "/" +:+ full_name.

(** The prefix under which the loop files a candidate name. *)
Definition candidate_prefix (name : string) : option string :=
  match match_packages_name name with
  | Some (group1, _) => Some (replace_char "/" "_" group1)
  | None => None
  end.

(** A paragraph is about another package than [package_name]. *)
Definition other_package `{Python} (package_name : string) (section : item)
    : Prop :=
  ∃ p, section !! "Package" = Some p ∧ p ≠ package_name.





Definition has_char (c : ascii) (s : string) : bool :=
  negb (all_chars (λ d, negb (Ascii.eqb d c)) s).

(** [os.path.basename]: what follows the last slash. *)
Fixpoint basename (s : string) : string :=
  match s with
  | EmptyString => EmptyString
  | String c s' => if has_char "/" s then basename s' else s
  end.

Fixpoint ends_with (suffix s : string) : bool :=
  String.eqb suffix s ||
  match s with
  | EmptyString => false
  | String _ s' => ends_with suffix s'
  end.

(** ** A repository to run the downloader on *)

Module Fixture.

(** The fields of a sources line without options or comment, as
    [aptsources] splits it: type, URI, distribution, components. A line
    with fewer than three fields or another type is left invalid, with
    empty attributes; nothing is raised. *)
Fixpoint split_ws (s : string) (word : string) : list string :=
  match s with
  | EmptyString => if truthy word then [word] else []
  | String c s' =>
      if Ascii.eqb c " " then
        (if truthy word then [word] else []) ++ split_ws s' EmptyString
      else split_ws s' (word +:+ String c EmptyString)
  end.

Definition apt_SourceEntry (line : string) : SourceEntry_t :=
  match split_ws line EmptyString with
  | type :: u :: d :: cs =>
      if bool_decide (type ∈ ["deb"; "deb-src"; "rpm"; "rpm-src"])
      then {| uri := u; dist := d; comps := cs |}
      else {| uri := ""; dist := ""; comps := [] |}
  | _ => {| uri := ""; dist := ""; comps := [] |}
  end.

Definition b (s : string) : bytes := list_byte_of_string s.

(** An interpreter for ASCII text. *)
#[local] Instance interpreter : Python := {|
  lower := ascii_lower;
  lower_ascii := λ _ _, eq_refl
|}.

(** What a repository serves and how its documents parse. *)
Record site := {
  pages : list (string * (Z * bytes));
  release_documents : list (string * release_paragraph);
  package_indices : list (string * list item);
  gpg_stdout : string
}.

Fixpoint assoc {A} (key : string) (l : list (string * A)) : option A :=
  match l with
  | [] => None
  | (k, v) :: rest => if String.eqb k key then Some v else assoc key rest
  end.

(** A stand-in for the hash functions: the algorithm name, a colon and the
    data. *)
Definition toy_hexdigest (name : string) (data : bytes) : string :=
  name +:+ ":" +:+ string_of_list_byte data.

(** The site as the program meets it when the hosts of [unreachable] do
    not answer and the directories of [missing] do not exist. *)
Definition collaborators_where (s : site) (unreachable missing : list string)
    : Collaborators := {|
  python := interpreter;
  connection_error := λ url,
    if existsb (λ host, String.prefix host url) unreachable
    then Some (RequestException "Failed to establish a new connection")
    else None;
  http := λ url, default (404, []) (assoc url (pages s));
  open_error := λ path,
    if existsb (λ dir, under dir path) missing
    then Some (FileNotFoundError path)
    else None;
  hexdigest := toy_hexdigest;
  decompress := λ data, Return data;
  Release_iter_paragraphs := λ content,
    match assoc (string_of_list_byte content) (release_documents s) with
    | Some p => [p]
    | None => []
    end;
  Packages_iter_paragraphs := λ content,
    default [] (assoc (string_of_list_byte content) (package_indices s));
  SourceEntry := apt_SourceEntry;
  fetch_repository_key := λ _, Return "KEY";
  build_keyring := λ dir name _, Return (path_join dir name);
  run_gpg := λ _ _, gpg_stdout s;
  mkdtemp := λ _, "/tmp/tmpedi"
|}.

Definition collaborators (s : site) : Collaborators :=
  collaborators_where s [] [].

Definition w0 : world := World [] ∅ [].

Definition repository : string := "deb http://example.test/debian/ bullseye main".

Definition curl : item :=
  {[ "Package" := "curl";
     "Filename" := "pool/main/c/curl/curl_7.74.0_amd64.deb";
     "SHA256" := "sha256:DEB" ]}.

Definition row (algorithm name data : string) : item :=
  {[ "name" := name; "size" := "7";
     algorithm := toy_hexdigest algorithm (b data) ]}.

Definition good_status : string :=
  "[GNUPG:] GOODSIG 0123 Archive Key" +:+ String newline
    ("[GNUPG:] VALIDSIG ABCD 2021-01-01" +:+ String newline EmptyString).

(** A control entry whose SHA-256 digest fits the payload while its
    SHA-512 digest does not. *)
Definition curl_wrong_sha512 : item :=
  {[ "Package" := "curl";
     "Filename" := "pool/main/c/curl/curl_7.74.0_amd64.deb";
     "SHA512" := "sha512:OTHER";
     "SHA256" := "sha256:DEB" ]}.


Definition dists : string := "http://example.test/debian/dists/bullseye".
Definition gz_name : string := "main/binary-amd64/Packages.gz".
Definition xz_name : string := "main/binary-amd64/Packages.xz".
Definition gz_url : string := dists +:+ "/" +:+ gz_name.
Definition xz_url : string := dists +:+ "/" +:+ xz_name.
Definition deb_url : string :=
  "http://example.test/debian/pool/main/c/curl/curl_7.74.0_amd64.deb".

(** A valid [InRelease], one gzip index with a SHA-256 digest, and the
    payload of [curl]. *)
Definition plain : site := {|
  pages :=
    [(dists +:+ "/InRelease", (200, b "INRELEASE"));
     (gz_url, (200, b "INDEX"));
     (deb_url, (200, b "DEB"))];
  release_documents :=
    [("INRELEASE", {[ "SHA256" := [row "sha256" gz_name "INDEX"] ]})];
  package_indices := [("INDEX", [curl])];
  gpg_stdout := good_status
|}.

(** No [InRelease]: [Release] with its detached signature. *)
Definition detached : site := {|
  pages :=
    [(dists +:+ "/Release", (200, b "RELEASE"));
     (dists +:+ "/Release.gpg", (200, b "SIGNATURE"));
     (gz_url, (200, b "INDEX"));
     (deb_url, (200, b "DEB"))];
  release_documents :=
    [("RELEASE", {[ "SHA256" := [row "sha256" gz_name "INDEX"] ]})];
  package_indices := [("INDEX", [curl])];
  gpg_stdout := good_status
|}.



(** The release document holds no paragraph (blank lines only). *)
Definition blank_release : site := {|
  pages :=
    [(dists +:+ "/InRelease", (200, b "BLANK"));
     (gz_url, (200, b "INDEX"));
     (deb_url, (200, b "DEB"))];
  release_documents := [];
  package_indices := [("INDEX", [curl])];
  gpg_stdout := good_status
|}.

(** The release document lists the xz index before the gzip one; both are
    served. *)
Definition xz_first : site := {|
  pages :=
    [(dists +:+ "/InRelease", (200, b "INRELEASE"));
     (gz_url, (200, b "INDEX"));
     (xz_url, (200, b "INDEXXZ"));
     (deb_url, (200, b "DEB"))];
  release_documents :=
    [("INRELEASE",
      {[ "SHA256" := [row "sha256" xz_name "INDEXXZ";
                      row "sha256" gz_name "INDEX"] ]})];
  package_indices := [("INDEX", [curl]); ("INDEXXZ", [curl])];
  gpg_stdout := good_status
|}.

(** The gzip index arrives with status 200 and an empty body, which does
    not fit its recorded digest. *)
Definition empty_index : site := {|
  pages :=
    [(dists +:+ "/InRelease", (200, b "INRELEASE"));
     (gz_url, (200, []));
     (xz_url, (200, b "INDEXXZ"));
     (deb_url, (200, b "DEB"))];
  release_documents :=
    [("INRELEASE",
      {[ "SHA256" := [row "sha256" gz_name "INDEX";
                      row "sha256" xz_name "INDEXXZ"] ]})];
  package_indices := [("INDEX", [curl]); ("INDEXXZ", [curl])];
  gpg_stdout := good_status
|}.

(** The gzip index arrives with one byte changed. *)
Definition corrupt_index : site := {|
  pages :=
    [(dists +:+ "/InRelease", (200, b "INRELEASE"));
     (gz_url, (200, b "INDEY"));
     (xz_url, (200, b "INDEXXZ"));
     (deb_url, (200, b "DEB"))];
  release_documents := release_documents empty_index;
  package_indices :=
    [("INDEX", [curl]); ("INDEY", [curl]); ("INDEXXZ", [curl])];
  gpg_stdout := good_status
|}.

(** The payload arrives with one byte changed. *)
Definition corrupt_payload : site := {|
  pages :=
    [(dists +:+ "/InRelease", (200, b "INRELEASE"));
     (gz_url, (200, b "INDEX"));
     (deb_url, (200, b "DEC"))];
  release_documents := release_documents plain;
  package_indices := package_indices plain;
  gpg_stdout := good_status
|}.

(** A control entry whose [Filename] goes on after [deb]. *)
Definition source_tarball : item :=
  {[ "Package" := "curl";
     "Filename" := "pool/main/c/curl/curl_7.74.0.debian.tar.xz";
     "SHA256" := "sha256:DEB" ]}.

Definition odd_filename : site := {|
  pages :=
    [(dists +:+ "/InRelease", (200, b "INRELEASE"));
     (gz_url, (200, b "INDEX"));
     ("http://example.test/debian/pool/main/c/curl/curl_7.74.0.debian.tar.xz",
      (200, b "DEB"))];
  release_documents := release_documents plain;
  package_indices := [("INDEX", [source_tarball])];
  gpg_stdout := good_status
|}.







(** The downloader that [__init__] builds for the repository line, a key
    and the architecture amd64. *)
Definition downloader (line : string) (key : option string)
    : PackageDownloader := {|
  _repository := Some line;
  _repository_key := key;
  _architectures := ["amd64"];
  _source := {| uri := rstrip "/" (uri (apt_SourceEntry line));
                dist := dist (apt_SourceEntry line);
                comps := comps (apt_SourceEntry line) |};
  _compressions := ["gz"; "bz2"; "xz"];
  _checksum_algorithms := ["SHA512"; "SHA256"]
|}.


Definition key : option string := Some "http://example.test/archive.key".

(** A control entry whose [Filename] climbs out of the pool. *)
Definition evil : item :=
  {[ "Package" := "curl";
     "Filename" := "../../etc/cron.d/evil.deb";
     "SHA256" := "sha256:EVIL" ]}.

Definition traversal : site := {|
  pages :=
    [(dists +:+ "/InRelease", (200, b "INRELEASE"));
     (gz_url, (200, b "INDEX"));
     ("http://example.test/debian/../../etc/cron.d/evil.deb", (200, b "EVIL"))];
  release_documents := release_documents plain;
  package_indices := [("INDEX", [evil])];
  gpg_stdout := good_status
|}.

End Fixture.


(** ** Further notions *)

(** [pat] stands at the start of a line of [s]. *)
Definition starts_a_line (pat s : string) : Prop :=
  ∃ before after,
    s = before +:+ pat +:+ after ∧
    (before = "" ∨ ∃ b, before = b +:+ String newline "").

(** The fields that [_verify_checksum] consults, in its order, each with
    the name of the hash that its value is compared under. *)
Definition checksum_fields : list (string * string) :=
  [("SHA512", "sha512"); ("SHA256", "sha256")].

(** The first of the fields that holds a non-empty value. *)
Fixpoint first_recorded `{Python} (names : list (string * string)) (it : item)
    : option (string * string) :=
  match names with
  | [] => None
  | (field, hash) :: rest =>
      match it !! field with
      | Some (String c s) => Some (hash, String c s)
      | _ => first_recorded rest it
      end
  end.

(** The URL lies below the URI of the repository. *)
Definition within_repository (self : PackageDownloader) (url : string) : Prop :=
  String.prefix (uri (_source self) +:+ "/") url = true.

(** From [w] to [w'] requests were only added, all of them for URLs below
    the URI of the repository. *)
Definition requests_within (self : PackageDownloader) (w w' : world) : Prop :=
  ∃ added, requests w' = requests w ++ added ∧
           Forall (within_repository self) added.

(** ** The command classes ([edi/lib/edicommand.py]) *)

(** A class, as far as the module looks at it: its name and its bases.
    [EdiCommand] is the class of that name, which the module compares by
    identity; [object_] is Python's [object], the base of [EdiCommand]. *)
Unset Elimination Schemes.
Inductive pyclass :=
| object_
| EdiCommand
| Subclass (name : string) (bases : list pyclass).
Set Elimination Schemes.

(** The value of an expression, or the [AssertionError] of a failed
    [assert]. *)
Inductive asserted (A : Type) :=
| Value (a : A)
| AssertionError.
Global Arguments Value {A} a.
Global Arguments AssertionError {A}.

(** [cls.__name__]. *)
Definition class_name (cls : pyclass) : string :=
  match cls with
  | object_ => "object"
  | EdiCommand => "EdiCommand"
  | Subclass name _ => name
  end.

(** [object] has no base, so the assertion on the number of bases fails
    for it. *)
Fixpoint compose_command_name `{Python} (current_class : pyclass)
    : asserted string :=
  match current_class with
  | EdiCommand => Value (lower (class_name EdiCommand))
  | object_ => AssertionError
  | Subclass name bases =>
      match bases with
      | [base] =>
          match compose_command_name base with
          | Value parent => Value (parent +:+ "." +:+ lower name)
          | AssertionError => AssertionError
          end
      | _ => AssertionError
      end
  end.

Definition _get_command_name `{Python} (cls : pyclass) : asserted string :=
  compose_command_name cls.

Definition _get_short_command_name `{Python} (cls : pyclass) : string :=
  lower (class_name cls).

Definition _get_cli_command_string `{Python} (cls : pyclass)
    : asserted string :=
  match _get_command_name cls with
  | Value name => Value (replace_char "." " " name)
  | AssertionError => AssertionError
  end.

Definition _get_command_file_name_prefix `{Python} (cls : pyclass)
    : asserted string :=
  match _get_command_name cls with
  | Value name => Value (replace_char "." "_" name)
  | AssertionError => AssertionError
  end.

(** The class reached from [base] by deriving one class after the other,
    with the given names. *)
Fixpoint derive (base : pyclass) (names : list string) : pyclass :=
  match names with
  | [] => base
  | name :: rest => derive (Subclass name [base]) rest
  end.

(** The lower-cased names, each after the separator. *)
Fixpoint separated `{Python} (separator : string) (names : list string)
    : string :=
  match names with
  | [] => EmptyString
  | name :: rest => separator +:+ lower name +:+ separated separator rest
  end.

(** *** Packing and unpacking images *)

(** A state with outcomes, for the methods that act on the host. *)
Definition ST (S A : Type) : Type := S → outcome A * S.

Global Instance ST_ret {S} : MRet (ST S) := λ A a s, (Return a, s).
Global Instance ST_bind {S} : MBind (ST S) := λ A B f m s,
  match m s with
  | (Return a, s') => f a s'
  | (Exit msg, s') => (Exit msg, s')
  | (Raise e, s') => (Raise e, s')
  end.

(** The commands run so far, each with its [sudo] flag, and the folders
    made so far, oldest first. *)
Record host := Host {
  executed : list (list string * bool);
  folders : list string
}.






(** ** Configuring a container ([edi/commands/lxccommands/lxcconfigure.py]) *)

(** What [Configure.run] asks of its collaborators, in the order of the
    calls. *)
Inductive step :=
| SetupParser (config_file : string)
| Print (text : string)
| LaunchRun (container_name config_file : string)
| PlaybooksRunAll (container_name connection : string)
| CreateHostFolders
| VerifyContainerMountpoints (container_name : string)
| ProfileRun (config_file : string) (include_post_config_profiles : bool)
| ApplyProfiles (container_name : string) (profiles : list string)
| PrintSuccess (text : string).

(** How each collaborator ends. *)
Class Lxd := {
  setup_parser : string → outcome unit;
  launch_run : string → string → outcome unit;
  playbooks_run_all : string → string → outcome unit;
  create_host_folders : outcome unit;
  verify_container_mountpoints : string → outcome unit;
  profile_run : string → bool → outcome (list string);
  apply_profiles : string → list string → outcome unit
}.

(** A call of a collaborator: the step is taken, then the call ends as the
    collaborator does. *)
Definition call {A} (s : step) (result : outcome A) : ST (list step) A :=
  λ trace, (result, trace ++ [s]).

(** [Configure.run]; [introspection_method], when given, is how calling
    it ends. [_result()] is the container name stored by the method. *)
Definition Configure_run `{Lxd} (container_name config_file : string)
    (introspection_method : option (outcome string)) : ST (list step) string :=
  call (SetupParser config_file) (setup_parser config_file);;
  match introspection_method with
  | Some method =>
      text ← (λ trace, (method, trace));
      call (Print text) (Return ());;
      mret container_name
  | None =>
      call (LaunchRun container_name config_file)
        (launch_run container_name config_file);;
      call (Print ("Going to configure container " +:+ container_name
                     +:+ " - be patient.")) (Return ());;
      call (PlaybooksRunAll container_name "lxd")
        (playbooks_run_all container_name "lxd");;
      call CreateHostFolders create_host_folders;;
      call (VerifyContainerMountpoints container_name)
        (verify_container_mountpoints container_name);;
      profiles ← call (ProfileRun config_file true) (profile_run config_file true);
      call (ApplyProfiles container_name profiles)
        (apply_profiles container_name profiles);;
      call (PrintSuccess ("Configured container " +:+ container_name +:+ "."))
        (Return ());;
      mret container_name
  end.

(** The steps of a configuration that goes through, given the profiles
    that [Profile().run] returns. *)
Definition configuration_steps (container_name config_file : string)
    (profiles : list string) : list step :=
  [SetupParser config_file;
   LaunchRun container_name config_file;
   Print ("Going to configure container " +:+ container_name +:+ " - be patient.");
   PlaybooksRunAll container_name "lxd";
   CreateHostFolders;
   VerifyContainerMountpoints container_name;
   ProfileRun config_file true;
   ApplyProfiles container_name profiles;
   PrintSuccess ("Configured container " +:+ container_name +:+ ".")].

(** Closes the case of [Configure.run] in which a collaborator fails. *)
Ltac configure_stops :=
  eexists; cbn [fst snd];
  (split; [rewrite <- ?app_assoc; reflexivity |]);
  (split; [eexists; reflexivity |]);
  (split; [split; intros E; discriminate E |]);
  intros x E; discriminate E.

(** Splits the cases of a stage along the replies to its requests, the
    files it opens and the key of the downloader. *)
Ltac reply_cases :=
  repeat match goal with
  | |- context [match connection_error ?u with _ => _ end] =>
      destruct (connection_error u) eqn:?
  | |- context [match served ?u with _ => _ end] =>
      destruct (served u) as [[|? ?]|] eqn:?
  | |- context [match open_error ?p with _ => _ end] =>
      destruct (open_error p) eqn:?
  | |- context [if truthy (_repository_key ?s) then _ else _] =>
      destruct (truthy (_repository_key s)) eqn:?
  end.

(** ** Running the monad *)

Lemma bind_run {A B} (m : M A) (f : A → M B) (w : world) :
  (m ≫= f) w =
  match m w with
  | (Return a, w') => f a w'
  | (Exit msg, w') => (Exit msg, w')
  | (Raise e, w') => (Raise e, w')
  end.
Proof. reflexivity. Qed.

Lemma ret_run {A} (a : A) (w : world) : (mret a : M A) w = (Return a, w).
Proof. reflexivity. Qed.

Lemma bind_return {A B} (m : M A) (f : A → M B) w a w' :
  m w = (Return a, w') → (m ≫= f) w = f a w'.
Proof. intros E. rewrite bind_run, E. reflexivity. Qed.

Lemma bind_exit {A B} (m : M A) (f : A → M B) w msg w' :
  m w = (Exit msg, w') → (m ≫= f) w = (Exit msg, w').
Proof. intros E. rewrite bind_run, E. reflexivity. Qed.

Lemma bind_raise {A B} (m : M A) (f : A → M B) w e w' :
  m w = (Raise e, w') → (m ≫= f) w = (Raise e, w').
Proof. intros E. rewrite bind_run, E. reflexivity. Qed.

(** A bind returns only if its first part returns. *)
Lemma bind_returns {A B} (m : M A) (f : A → M B) w b w2 :
  (m ≫= f) w = (Return b, w2) →
  ∃ a w1, m w = (Return a, w1) ∧ f a w1 = (Return b, w2).
Proof.
  rewrite bind_run. destruct (m w) as [[a|msg|e] w1]; intros E;
    [eauto | discriminate | discriminate].
Qed.

(** ** The constructor *)

Lemma init_returns `{Collaborators} repository repository_key architectures
    w self w' :
  __init__ repository repository_key architectures w = (Return self, w') →
  w' = w ∧ truthy repository = true ∧ truthy architectures = true ∧
  _repository_key self = repository_key ∧
  _architectures self = default [] architectures ∧
  _source self = {| uri := rstrip "/" (uri (SourceEntry (default "" repository)));
                    dist := dist (SourceEntry (default "" repository));
                    comps := comps (SourceEntry (default "" repository)) |} ∧
  _compressions self = ["gz"; "bz2"; "xz"] ∧
  _checksum_algorithms self = ["SHA512"; "SHA256"].
Proof.
  unfold __init__.
  destruct (truthy repository); simpl; [| discriminate].
  destruct (truthy architectures); simpl; [| discriminate].
  intros E. injection E as <- <-. simpl. tauto.
Qed.

(** ** Checksums *)

Lemma truthy_option_string (o : option string) :
  truthy o = match o with Some (String _ _) => true | _ => false end.
Proof. destruct o as [[|c s]|]; reflexivity. Qed.

(** The loop of [_verify_checksum] compares the data with the recorded
    checksum and with nothing else. *)
Lemma verify_checksum_loop_run `{Collaborators} algorithms data it w :
  _verify_checksum_loop data it algorithms w =
  match recorded_checksum algorithms it with
  | None => (Raise (NameError "package_item"), w)
  | Some (algorithm, checksum) =>
      match data with
      | None => (Raise (TypeError "object supporting the buffer API required"), w)
      | Some d =>
          if String.eqb (hexdigest (lower algorithm) d) checksum
          then (Return (), w) else (ChecksumMismatch, w)
      end
  end.
Proof.
  induction algorithms as [|algorithm rest IH]; simpl; [reflexivity |].
  destruct (it !! algorithm) as [[|c s]|] eqn:Eu; simpl.
  - destruct (it !! lower algorithm) as [[|c s]|] eqn:El; simpl; try apply IH.
    destruct data as [d|]; [| reflexivity].
    destruct (String.eqb _ _); reflexivity.
  - destruct data as [d|]; [| reflexivity].
    destruct (String.eqb _ _); reflexivity.
  - destruct (it !! lower algorithm) as [[|c s]|] eqn:El; simpl; try apply IH.
    destruct data as [d|]; [| reflexivity].
    destruct (String.eqb _ _); reflexivity.
Qed.

(** What [str.lower()] makes of the names of the module. *)
Lemma lower_SHA512 `{Python} : lower "SHA512" = "sha512".
Proof. apply (lower_ascii "SHA512"). reflexivity. Qed.

Lemma lower_SHA256 `{Python} : lower "SHA256" = "sha256".
Proof. apply (lower_ascii "SHA256"). reflexivity. Qed.

(** A Deb822 mapping reads a field under whatever case its name is asked
    in. *)
Lemma lookup_ignores_case `{Python} {V} (d : Deb822Dict V) (key key' : string) :
  is_ascii key = true → is_ascii key' = true →
  ascii_lower key = ascii_lower key' → d !! key = d !! key'.
Proof.
  intros Hk Hk' E. unfold lookup, Deb822Dict_lookup.
  rewrite (lower_ascii key Hk), (lower_ascii key' Hk'), E. reflexivity.
Qed.

(** On the algorithms of [__init__] the second look of the loop, under the
    lower-cased name, reads the field that the first look has read. *)
Lemma recorded_checksum_init `{Python} (it : item) :
  recorded_checksum ["SHA512"; "SHA256"] it =
  match it !! "SHA512" with
  | Some (String c s) => Some ("SHA512", String c s)
  | _ =>
      match it !! "SHA256" with
      | Some (String c s) => Some ("SHA256", String c s)
      | _ => None
      end
  end.
Proof.
  cbn [recorded_checksum]. rewrite lower_SHA512, lower_SHA256.
  rewrite (lookup_ignores_case it "sha512" "SHA512") by reflexivity.
  rewrite (lookup_ignores_case it "sha256" "SHA256") by reflexivity.
  destruct (it !! "SHA512") as [[|c s]|]; try reflexivity;
    destruct (it !! "SHA256") as [[|c' s']|]; reflexivity.
Qed.

(** C10, as the code has it: [_verify_checksum] ends in a [NameError],
    and not in an exit with a message about the missing checksum, exactly
    on the items that hold no non-empty value under the field SHA512 and
    none under the field SHA256, the names of the fields read without
    regard to case as a Deb822 mapping reads them: the statement after
    the loop reads the unbound name [package_item]. *)
Theorem verify_checksum_without_field_raises_NameError `{Collaborators}
    repository repository_key architectures w0 self w1 data (it : item) w :
  __init__ repository repository_key architectures w0 = (Return self, w1) →
  (truthy (it !! "SHA512") = false ∧ truthy (it !! "SHA256") = false ↔
   _verify_checksum self data it w = (Raise (NameError "package_item"), w)).
Proof.
  intros Hinit.
  apply init_returns in Hinit as (_ & _ & _ & _ & _ & _ & _ & Halg).
  unfold _verify_checksum. rewrite Halg, verify_checksum_loop_run.
  rewrite recorded_checksum_init.
  destruct (it !! "SHA512") as [[|c s]|]; cbn [truthy option_truthy string_truthy].
  - destruct (it !! "SHA256") as [[|c' s']|]; cbn [truthy option_truthy string_truthy].
    + split; [reflexivity | intros _; split; reflexivity].
    + split; [intros [_ E]; discriminate E |].
      destruct data as [d|]; [destruct (String.eqb _ _) |]; intros E; discriminate E.
    + split; [reflexivity | intros _; split; reflexivity].
  - split; [intros [E _]; discriminate E |].
    destruct data as [d|]; [destruct (String.eqb _ _) |]; intros E; discriminate E.
  - destruct (it !! "SHA256") as [[|c' s']|]; cbn [truthy option_truthy string_truthy].
    + split; [reflexivity | intros _; split; reflexivity].
    + split; [intros [_ E]; discriminate E |].
      destruct data as [d|]; [destruct (String.eqb _ _) |]; intros E; discriminate E.
    + split; [reflexivity | intros _; split; reflexivity].
Qed.

Lemma verify_checksum_without_field_witness :
  let _ := Fixture.collaborators Fixture.plain in
  ∃ self,
    __init__ (Some Fixture.repository) None (Some ["amd64"]) Fixture.w0
      = (Return self, Fixture.w0) ∧
    _verify_checksum self (Some (Fixture.b "DEB"))
        (paragraph [("Package", "curl"); ("MD5sum", "0f")]) Fixture.w0
      = (Raise (NameError "package_item"), Fixture.w0).
Proof.
  intros env. eexists. split; [reflexivity |].
  apply (verify_checksum_without_field_raises_NameError
           (Some Fixture.repository) None (Some ["amd64"]) Fixture.w0 _
           Fixture.w0 (Some (Fixture.b "DEB"))
           (paragraph [("Package", "curl"); ("MD5sum", "0f")]) Fixture.w0
           eq_refl).
  split; vm_compute; reflexivity.
Defined.

(** C10, refuted as stated: a control entry that writes its digest under
    the field name Sha256 has no field named SHA512, sha512, SHA256 or
    sha256, and yet the data is verified against that digest and the call
    returns. *)
Lemma mixed_case_field_is_verified :
  let _ := Fixture.collaborators Fixture.plain in
  let stanza := [("Package", "curl"); ("Sha256", "sha256:DEB")] in
  Fixture.assoc "SHA512" stanza = None ∧ Fixture.assoc "sha512" stanza = None ∧
  Fixture.assoc "SHA256" stanza = None ∧ Fixture.assoc "sha256" stanza = None ∧
  _verify_checksum (Fixture.downloader Fixture.repository None)
      (Some (Fixture.b "DEB")) (paragraph stanza) Fixture.w0
    = (Return (), Fixture.w0) ∧
  _verify_checksum (Fixture.downloader Fixture.repository None)
      (Some (Fixture.b "DEC")) (paragraph stanza) Fixture.w0
    = (ChecksumMismatch, Fixture.w0).
Proof. vm_compute. repeat split; reflexivity. Qed.

(** The constructor exits with one of its two messages exactly when the
    repository line or the list of architectures is missing or empty;
    what [SourceEntry] makes of the line plays no part. *)
Lemma init_run `{Collaborators} repository repository_key architectures w :
  (truthy repository = false ∧
   __init__ repository repository_key architectures w
     = (Exit "Missing argument 'repository'.", w)) ∨
  (truthy repository = true ∧ truthy architectures = false ∧
   __init__ repository repository_key architectures w
     = (Exit "Missing (non empty) list 'architectures'.", w)) ∨
  (truthy repository = true ∧ truthy architectures = true ∧
   ∃ self, __init__ repository repository_key architectures w = (Return self, w)).
Proof.
  unfold __init__.
  destruct (truthy repository); [| left; split; reflexivity].
  destruct (truthy architectures); right; [right | left]; simpl; eauto.
Qed.

(** C9, as the code has it: constructing the downloader fails, with one of
    the two "Missing ..." messages, exactly when the repository line is
    missing or empty or the list of architectures is missing or empty; in
    every other case the constructor returns, whatever the line decomposes
    into and whatever its list of components. *)
Theorem init_fails_iff_repository_or_architectures_missing `{Collaborators}
    repository repository_key architectures w :
  (InvalidRepositorySpec (__init__ repository repository_key architectures w).1
     ↔ truthy repository = false ∨ truthy architectures = false) ∧
  (truthy repository = true → truthy architectures = true →
   ∃ self, __init__ repository repository_key architectures w = (Return self, w)).
Proof.
  destruct (init_run repository repository_key architectures w)
    as [[Hr E] | [(Hr & Ha & E) | (Hr & Ha & self & E)]]; rewrite E; simpl.
  - split; [| congruence]. split; [auto |]. intros _. left. reflexivity.
  - split; [| congruence]. split; [auto |]. intros _. right. reflexivity.
  - split; [| eauto]. split.
    + intros [E' | E']; discriminate.
    + intros [E' | E']; congruence.
Qed.

Lemma init_fails_iff_witness :
  let _ := Fixture.collaborators Fixture.plain in
  InvalidRepositorySpec
    (__init__ (Some Fixture.repository) None (Some []) Fixture.w0).1.
Proof.
  intros env.
  apply (init_fails_iff_repository_or_architectures_missing
           (Some Fixture.repository) None (Some []) Fixture.w0).
  right. reflexivity.
Defined.

(** C9 as stated fails: a repository line without components, and a line
    that does not decompose at all, are both accepted by the constructor. *)
Lemma init_accepts_line_without_components :
  let _ := Fixture.collaborators Fixture.plain in
  comps (SourceEntry "deb http://example.test/debian bullseye") = [] ∧
  ¬ InvalidRepositorySpec
      (__init__ (Some "deb http://example.test/debian bullseye") None
         (Some ["amd64"]) Fixture.w0).1 ∧
  ¬ InvalidRepositorySpec
      (__init__ (Some "nonsense") None (Some ["amd64"]) Fixture.w0).1.
Proof.
  split; [reflexivity |].
  split; intros [E | E]; vm_compute in E; discriminate.
Qed.

(** ** The stages of [download] *)

Lemma truthy_string_true (s : string) : s ≠ "" → truthy s = true.
Proof. destruct s; [congruence | reflexivity]. Qed.

Lemma truthy_list_true {A} (l : list A) : l ≠ [] → truthy l = true.
Proof. destruct l; [congruence | reflexivity]. Qed.

(** With a package name, [download] is its three stages inside the
    temporary directory. *)
Lemma download_run `{Collaborators} self package_name dest w :
  package_name ≠ "" →
  download self (Some package_name) dest w =
  (let tempdir := mkdtemp (files w) in
   let (r, w') :=
     ('(release_file, signature_file) ← download_release self tempdir;
      download_authenticate self package_name tempdir release_file signature_file;;
      download_locate_and_fetch self package_name release_file dest) w in
   (r, remove_tree tempdir w')).
Proof.
  intros Hn. unfold download.
  destruct package_name; [congruence | reflexivity].
Qed.




(** Once the first two stages have returned, [download] ends as the third
    one does. *)
Lemma download_after_authenticate `{Collaborators} self package_name dest w
    release_file signature_file w1 w2 :
  package_name ≠ "" →
  download_release self (mkdtemp (files w)) w
    = (Return (release_file, signature_file), w1) →
  download_authenticate self package_name (mkdtemp (files w)) release_file
    signature_file w1 = (Return (), w2) →
  download self (Some package_name) dest w =
  (let (r, w3) := download_locate_and_fetch self package_name release_file dest w2
   in (r, remove_tree (mkdtemp (files w)) w3)).
Proof.
  intros Hn E1 E2. rewrite download_run by assumption. cbv zeta.
  rewrite bind_run, E1. cbv beta iota. rewrite bind_run, E2. reflexivity.
Qed.

(** ** The release document *)

Lemma parse_release_file_run `{Collaborators} self release_file w content
    main_content rest :
  files w !! release_file = Some content →
  Release_iter_paragraphs content = main_content :: rest →
  _parse_release_file self release_file w =
  match main_content !! "SHA512" with
  | Some (r :: rows) =>
      (Return (List.filter (name_in (packages_filter self)) (r :: rows)), w)
  | _ =>
      match main_content !! "SHA256" with
      | Some (r :: rows) =>
          (Return (List.filter (name_in (packages_filter self)) (r :: rows)), w)
      | _ => (NoChecksumSection, w)
      end
  end.
Proof.
  intros Hf Hp. unfold _parse_release_file, read_file.
  rewrite bind_run, Hf, Hp.
  destruct (main_content !! "SHA512") as [[|r rows]|]; simpl;
    try reflexivity;
    destruct (main_content !! "SHA256") as [[|r' rows']|]; reflexivity.
Qed.

(** C2, as the code has it: a release document with a first paragraph
    yields the rows of exactly one checksum section of that paragraph,
    SHA512 if it has rows and otherwise SHA256; with neither, the lookup
    stage and with it [download] exit with the message of
    [NoChecksumSection]; a release document without any paragraph ends
    the lookup stage and with it [download] in [StopIteration]; and an
    entry that carries a SHA512 digest is judged by that digest alone,
    whatever its SHA256 digest. *)
Theorem checksum_algorithm_selection `{Collaborators}
    repository repository_key architectures w0 self w1 :
  __init__ repository repository_key architectures w0 = (Return self, w1) →
  (∀ release_file w content main_content rest,
     files w !! release_file = Some content →
     Release_iter_paragraphs content = main_content :: rest →
     (∀ rows, main_content !! "SHA512" = Some rows → rows ≠ [] →
        _parse_release_file self release_file w
          = (Return (List.filter (name_in (packages_filter self)) rows), w)) ∧
     (∀ rows, truthy (main_content !! "SHA512") = false →
        main_content !! "SHA256" = Some rows → rows ≠ [] →
        _parse_release_file self release_file w
          = (Return (List.filter (name_in (packages_filter self)) rows), w)) ∧
     (truthy (main_content !! "SHA512") = false →
      truthy (main_content !! "SHA256") = false →
        _parse_release_file self release_file w = (NoChecksumSection, w) ∧
        ∀ package_name dest,
          download_locate_and_fetch self package_name release_file dest w
            = (NoChecksumSection, w))) ∧
  (∀ package_name dest w release_file signature_file wa wb content
     main_content rest,
     package_name ≠ "" →
     download_release self (mkdtemp (files w)) w
       = (Return (release_file, signature_file), wa) →
     download_authenticate self package_name (mkdtemp (files w)) release_file
       signature_file wa = (Return (), wb) →
     files wb !! release_file = Some content →
     Release_iter_paragraphs content = main_content :: rest →
     truthy (main_content !! "SHA512") = false →
     truthy (main_content !! "SHA256") = false →
     download self (Some package_name) dest w
       = (NoChecksumSection, remove_tree (mkdtemp (files w)) wb)) ∧
  (∀ release_file w content,
     files w !! release_file = Some content →
     Release_iter_paragraphs content = [] →
     _parse_release_file self release_file w = (Raise StopIteration, w) ∧
     ∀ package_name dest,
       download_locate_and_fetch self package_name release_file dest w
         = (Raise StopIteration, w)) ∧
  (∀ package_name dest w release_file signature_file wa wb content,
     package_name ≠ "" →
     download_release self (mkdtemp (files w)) w
       = (Return (release_file, signature_file), wa) →
     download_authenticate self package_name (mkdtemp (files w)) release_file
       signature_file wa = (Return (), wb) →
     files wb !! release_file = Some content →
     Release_iter_paragraphs content = [] →
     download self (Some package_name) dest w
       = (Raise StopIteration, remove_tree (mkdtemp (files w)) wb)) ∧
  (∀ (it : item) sha512 sha256 data w,
     it !! "SHA512" = Some sha512 → sha512 ≠ "" →
     it !! "SHA256" = Some sha256 →
     _verify_checksum self (Some data) it w =
     (if String.eqb (hexdigest "sha512" data) sha512
      then Return () else ChecksumMismatch, w)).
Proof.
  intros Hinit.
  apply init_returns in Hinit as (_ & _ & _ & _ & _ & _ & _ & Halg).
  assert (Hnone : ∀ release_file w content main_content rest,
            files w !! release_file = Some content →
            Release_iter_paragraphs content = main_content :: rest →
            truthy (main_content !! "SHA512") = false →
            truthy (main_content !! "SHA256") = false →
            _parse_release_file self release_file w = (NoChecksumSection, w)).
  { intros rf w content main rest Hf Hp H512 H256.
    rewrite (parse_release_file_run _ _ _ _ _ _ Hf Hp).
    destruct (main !! "SHA512") as [[|r rows]|]; try discriminate;
      destruct (main !! "SHA256") as [[|r' rows']|]; try discriminate;
      reflexivity. }
  assert (Hstop : ∀ release_file w content,
            files w !! release_file = Some content →
            Release_iter_paragraphs content = [] →
            _parse_release_file self release_file w = (Raise StopIteration, w)).
  { intros rf w content Hf Hp. unfold _parse_release_file, read_file.
    rewrite bind_run, Hf, Hp. reflexivity. }
  split; [| split; [| split; [| split]]].
  - intros rf w content main rest Hf Hp. split; [| split].
    + intros rows E Hne. rewrite (parse_release_file_run _ _ _ _ _ _ Hf Hp), E.
      destruct rows; [congruence | reflexivity].
    + intros rows H512 E Hne.
      rewrite (parse_release_file_run _ _ _ _ _ _ Hf Hp), E.
      destruct (main !! "SHA512") as [[|r rows']|]; try discriminate;
        (destruct rows; [congruence | reflexivity]).
    + intros H512 H256. split; [eauto |].
      intros package_name dest. unfold download_locate_and_fetch.
      apply bind_exit. eauto.
  - intros package_name dest w rf sf wa wb content main rest Hn E1 E2 Hf Hp
      H512 H256.
    rewrite (download_after_authenticate _ _ _ _ _ _ _ _ Hn E1 E2).
    unfold download_locate_and_fetch.
    rewrite (bind_exit _ _ _ _ _ (Hnone _ _ _ _ _ Hf Hp H512 H256)).
    reflexivity.
  - intros rf w content Hf Hp. split; [eauto |].
    intros package_name dest. unfold download_locate_and_fetch.
    apply bind_raise. eauto.
  - intros package_name dest w rf sf wa wb content Hn E1 E2 Hf Hp.
    rewrite (download_after_authenticate _ _ _ _ _ _ _ _ Hn E1 E2).
    unfold download_locate_and_fetch.
    rewrite (bind_raise _ _ _ _ _ (Hstop _ _ _ Hf Hp)).
    reflexivity.
  - intros it sha512 sha256 data w E512 Hne E256.
    unfold _verify_checksum. rewrite Halg, verify_checksum_loop_run.
    cbn [recorded_checksum]. rewrite E512.
    destruct sha512 as [|c s]; [congruence |].
    cbv beta iota. rewrite lower_SHA512.
    destruct (String.eqb _ _); reflexivity.
Qed.

Lemma checksum_algorithm_selection_witness :
  let _ := Fixture.collaborators Fixture.plain in
  ∃ self,
    __init__ (Some Fixture.repository) None (Some ["amd64"]) Fixture.w0
      = (Return self, Fixture.w0) ∧
    hexdigest "sha256" (Fixture.b "DEB") = "sha256:DEB" ∧
    _verify_checksum self (Some (Fixture.b "DEB")) Fixture.curl_wrong_sha512
      Fixture.w0 = (ChecksumMismatch, Fixture.w0).
Proof.
  intros env. eexists. split; [reflexivity |]. split; [reflexivity |].
  pose proof (checksum_algorithm_selection
                (Some Fixture.repository) None (Some ["amd64"]) Fixture.w0
                _ _ eq_refl) as (_ & _ & _ & _ & Hentry).
  rewrite (Hentry Fixture.curl_wrong_sha512 "sha512:OTHER" "sha256:DEB"
             (Fixture.b "DEB") Fixture.w0);
    [reflexivity | reflexivity | discriminate | reflexivity].
Defined.

(** C2, refuted as stated: a release document without any paragraph has
    neither checksum section, and [download] does not exit with the
    message of [NoChecksumSection]: it ends in [StopIteration]. *)
Lemma release_without_paragraph_raises_StopIteration :
  let _ := Fixture.collaborators Fixture.blank_release in
  served (Fixture.dists +:+ "/InRelease") = Some (Fixture.b "BLANK") ∧
  Release_iter_paragraphs (Fixture.b "BLANK") = [] ∧
  (download (Fixture.downloader Fixture.repository None) (Some "curl") "/tmp"
     Fixture.w0).1 = Raise StopIteration.
Proof. vm_compute. repeat split; reflexivity. Qed.

(** ** Fetching *)

(** A body is only handed over for a request that was answered. *)
Lemma served_answered `{Collaborators} url data :
  served url = Some data → connection_error url = None.
Proof. unfold served. destruct (connection_error url); [discriminate | reflexivity]. Qed.

Lemma fetch_archive_element_run `{Collaborators} url check w :
  _fetch_archive_element url check w =
  match connection_error url with
  | Some e => (Raise e, add_request url w)
  | None =>
      match served url with
      | Some data => (Return (Some data), add_request url w)
      | None => if check then (RepositoryUnreachable url, add_request url w)
                else (Return None, add_request url w)
      end
  end.
Proof.
  unfold _fetch_archive_element, served, requests_get.
  rewrite bind_run.
  destruct (connection_error url); [reflexivity |]. cbv beta iota.
  destruct ((http url).1 =? 200); simpl; [reflexivity |].
  destruct check; reflexivity.
Qed.

Lemma fetch_archive_element_served `{Collaborators} url check w data :
  served url = Some data →
  _fetch_archive_element url check w = (Return (Some data), add_request url w).
Proof.
  intros E. rewrite fetch_archive_element_run, (served_answered _ _ E), E.
  reflexivity.
Qed.

(** Every call of [_fetch_archive_element] sends exactly one request. *)
Lemma fetch_archive_element_one_request `{Collaborators} url check w :
  requests (_fetch_archive_element url check w).2 = (requests w ++ [url])%list.
Proof.
  rewrite fetch_archive_element_run.
  destruct (connection_error url); [reflexivity |].
  destruct (served url); [| destruct check]; reflexivity.
Qed.

Lemma write_file_run `{Collaborators} path (data : bytes) w :
  write_file path (Some data) w =
  match open_error path with
  | Some e => (Raise e, w)
  | None => (Return (), add_file path data w)
  end.
Proof. reflexivity. Qed.

(** The [Release] path of the first stage, after the request for
    [InRelease] gave nothing. *)
Lemma download_release_detached `{Collaborators} self tempdir w :
  truthy (served (base_url self +:+ "/InRelease")) = false →
  connection_error (base_url self +:+ "/InRelease") = None →
  download_release self tempdir w =
  let inrelease := base_url self +:+ "/InRelease" in
  let release := base_url self +:+ "/Release" in
  let release_gpg := base_url self +:+ "/Release.gpg" in
  let w2 := add_request release (add_request inrelease w) in
  match connection_error release with
  | Some e => (Raise e, w2)
  | None =>
      match served release with
      | None => (RepositoryUnreachable release, w2)
      | Some release_data =>
          match open_error (path_join tempdir "Release") with
          | Some e => (Raise e, w2)
          | None =>
              let w3 := add_file (path_join tempdir "Release") release_data w2 in
              if truthy (_repository_key self) then
                let w4 := add_request release_gpg w3 in
                match connection_error release_gpg with
                | Some e => (Raise e, w4)
                | None =>
                    match served release_gpg with
                    | None => (RepositoryUnreachable release_gpg, w4)
                    | Some signature_data =>
                        match open_error (path_join tempdir "Release.gpg") with
                        | Some e => (Raise e, w4)
                        | None =>
                            (Return (path_join tempdir "Release",
                                     Some (path_join tempdir "Release.gpg")),
                             add_file (path_join tempdir "Release.gpg")
                               signature_data w4)
                        end
                    end
                end
              else
                (Return (path_join tempdir "Release",
                         Some (path_join tempdir "Release.gpg")), w3)
          end
      end
  end.
Proof.
  intros Hin Ha. unfold download_release, _try_fetch_archive_element. cbv zeta.
  rewrite bind_run, fetch_archive_element_run, Ha.
  assert (Hrest : ∀ w1,
    (release_data ← _fetch_archive_element (base_url self +:+ "/Release") true;
     write_file (path_join tempdir "Release") release_data;;
     (if truthy (_repository_key self) then
        signature_data ←
          _fetch_archive_element (base_url self +:+ "/Release.gpg") true;
        write_file (default "" (Some (path_join tempdir "Release.gpg")))
          signature_data
      else mret ());;
     mret (path_join tempdir "Release", Some (path_join tempdir "Release.gpg")))
      w1 =
    match connection_error (base_url self +:+ "/Release") with
    | Some e => (Raise e, add_request (base_url self +:+ "/Release") w1)
    | None =>
        match served (base_url self +:+ "/Release") with
        | None => (RepositoryUnreachable (base_url self +:+ "/Release"),
                   add_request (base_url self +:+ "/Release") w1)
        | Some release_data =>
            match open_error (path_join tempdir "Release") with
            | Some e => (Raise e, add_request (base_url self +:+ "/Release") w1)
            | None =>
                if truthy (_repository_key self) then
                  match connection_error (base_url self +:+ "/Release.gpg") with
                  | Some e =>
                      (Raise e,
                       add_request (base_url self +:+ "/Release.gpg")
                         (add_file (path_join tempdir "Release") release_data
                            (add_request (base_url self +:+ "/Release") w1)))
                  | None =>
                      match served (base_url self +:+ "/Release.gpg") with
                      | None =>
                          (RepositoryUnreachable (base_url self +:+ "/Release.gpg"),
                           add_request (base_url self +:+ "/Release.gpg")
                             (add_file (path_join tempdir "Release") release_data
                                (add_request (base_url self +:+ "/Release") w1)))
                      | Some signature_data =>
                          match open_error (path_join tempdir "Release.gpg") with
                          | Some e =>
                              (Raise e,
                               add_request (base_url self +:+ "/Release.gpg")
                                 (add_file (path_join tempdir "Release")
                                    release_data
                                    (add_request (base_url self +:+ "/Release")
                                       w1)))
                          | None =>
                              (Return (path_join tempdir "Release",
                                       Some (path_join tempdir "Release.gpg")),
                               add_file (path_join tempdir "Release.gpg")
                                 signature_data
                                 (add_request (base_url self +:+ "/Release.gpg")
                                    (add_file (path_join tempdir "Release")
                                       release_data
                                       (add_request
                                          (base_url self +:+ "/Release") w1))))
                          end
                      end
                  end
                else
                  (Return (path_join tempdir "Release",
                           Some (path_join tempdir "Release.gpg")),
                   add_file (path_join tempdir "Release") release_data
                     (add_request (base_url self +:+ "/Release") w1))
            end
        end
    end).
  { intros w1. rewrite bind_run, fetch_archive_element_run.
    destruct (connection_error (base_url self +:+ "/Release")); [reflexivity |].
    destruct (served (base_url self +:+ "/Release")) as [rd|];
      cbv beta iota; [| reflexivity].
    rewrite bind_run, write_file_run.
    destruct (open_error (path_join tempdir "Release")); [reflexivity |].
    cbv beta iota.
    destruct (truthy (_repository_key self)); [| reflexivity].
    rewrite !bind_run, fetch_archive_element_run.
    destruct (connection_error (base_url self +:+ "/Release.gpg"));
      [reflexivity |].
    destruct (served (base_url self +:+ "/Release.gpg")) as [sd|];
      cbv beta iota; [| reflexivity].
    simpl default. rewrite write_file_run.
    destruct (open_error (path_join tempdir "Release.gpg")); reflexivity. }
  destruct (served (base_url self +:+ "/InRelease")) as [[|x data]|];
    [| discriminate Hin |]; cbv beta iota.
  - change (truthy (Some (@nil byte))) with false. cbv iota. apply Hrest.
  - change (truthy (@None bytes)) with false. cbv iota. apply Hrest.
Qed.

(** The first stage of [download], case by case. *)
Lemma download_release_run `{Collaborators} self tempdir w :
  download_release self tempdir w =
  let inrelease := base_url self +:+ "/InRelease" in
  let release := base_url self +:+ "/Release" in
  let release_gpg := base_url self +:+ "/Release.gpg" in
  let w1 := add_request inrelease w in
  let w2 := add_request release w1 in
  let detached :=
    match connection_error release with
    | Some e => (Raise e, w2)
    | None =>
        match served release with
        | None => (RepositoryUnreachable release, w2)
        | Some release_data =>
            match open_error (path_join tempdir "Release") with
            | Some e => (Raise e, w2)
            | None =>
                let w3 := add_file (path_join tempdir "Release") release_data w2 in
                if truthy (_repository_key self) then
                  let w4 := add_request release_gpg w3 in
                  match connection_error release_gpg with
                  | Some e => (Raise e, w4)
                  | None =>
                      match served release_gpg with
                      | None => (RepositoryUnreachable release_gpg, w4)
                      | Some signature_data =>
                          match open_error (path_join tempdir "Release.gpg") with
                          | Some e => (Raise e, w4)
                          | None =>
                              (Return (path_join tempdir "Release",
                                       Some (path_join tempdir "Release.gpg")),
                               add_file (path_join tempdir "Release.gpg")
                                 signature_data w4)
                          end
                      end
                  end
                else
                  (Return (path_join tempdir "Release",
                           Some (path_join tempdir "Release.gpg")), w3)
            end
        end
    end in
  match connection_error inrelease with
  | Some e => (Raise e, w1)
  | None =>
      match served inrelease with
      | Some (x :: data) =>
          match open_error (path_join tempdir "InRelease") with
          | Some e => (Raise e, w1)
          | None =>
              (Return (path_join tempdir "InRelease", None),
               add_file (path_join tempdir "InRelease") (x :: data) w1)
          end
      | _ => detached
      end
  end.
Proof.
  cbv zeta.
  destruct (connection_error (base_url self +:+ "/InRelease")) as [e|] eqn:Ha.
  { unfold download_release, _try_fetch_archive_element. cbv zeta.
    rewrite bind_run, fetch_archive_element_run, Ha. reflexivity. }
  destruct (served (base_url self +:+ "/InRelease")) as [[|x data]|] eqn:Hs.
  - rewrite download_release_detached by (rewrite ?Hs; auto). reflexivity.
  - unfold download_release, _try_fetch_archive_element. cbv zeta.
    rewrite bind_run, fetch_archive_element_run, Ha, Hs. cbv beta iota.
    change (truthy (Some (x :: data))) with true. cbv iota.
    rewrite bind_run, write_file_run.
    destruct (open_error (path_join tempdir "InRelease")); reflexivity.
  - rewrite download_release_detached by (rewrite ?Hs; auto). reflexivity.
Qed.

Lemma append_inv_head (a x y : string) : a +:+ x = a +:+ y → x = y.
Proof.
  induction a as [|c a IH]; simpl; [auto |].
  intros E. injection E as E. auto.
Qed.





(** ** The signature check *)

(** The first stage requests nothing but the release documents. *)
Lemma download_release_requests `{Collaborators} self tempdir w :
  ∃ l, requests (download_release self tempdir w).2 = (requests w ++ l)%list ∧
       l ⊆ [base_url self +:+ "/InRelease"; base_url self +:+ "/Release";
            base_url self +:+ "/Release.gpg"].
Proof.
  rewrite download_release_run. cbv zeta.
  reply_cases; cbn [snd requests add_request add_file];
    rewrite <- ?app_assoc; eexists; (split; [reflexivity |]);
    intros u; simpl; rewrite !elem_of_cons, !elem_of_nil; tauto.
Qed.




(** ** The index lookup *)

Lemma scan_paragraphs_world `{Collaborators} package_name sections w :
  (scan_paragraphs package_name sections w).2 = w.
Proof.
  induction sections as [|section rest IH]; simpl; [reflexivity |].
  unfold getitem. destruct (section !! "Package") as [p|]; [| reflexivity].
  rewrite bind_run. simpl. destruct (String.eqb p package_name); auto.
Qed.




Lemma scan_paragraphs_some_inv `{Collaborators} package_name sections w section w' :
  scan_paragraphs package_name sections w = (Return (Some section), w') →
  ∃ before after, sections = before ++ section :: after ∧
    Forall (other_package package_name) before ∧
    section !! "Package" = Some package_name.
Proof.
  induction sections as [|s rest IH]; simpl; [discriminate |].
  unfold getitem. destruct (s !! "Package") as [p|] eqn:Ep; [| discriminate].
  rewrite bind_run. simpl.
  destruct (String.eqb p package_name) eqn:Eq.
  - intros E. injection E as <- <-. apply String.eqb_eq in Eq. subst p.
    exists [], rest. auto.
  - intros E. destruct (IH E) as (before & after & -> & Hb & Hs).
    exists (s :: before), after. split; [reflexivity |]. split; [| exact Hs].
    constructor; [| exact Hb]. exists p. split; [exact Ep |].
    apply String.eqb_neq. exact Eq.
Qed.


Lemma verify_checksum_run `{Collaborators} self data it w :
  _verify_checksum self data it w =
  match recorded_checksum (_checksum_algorithms self) it with
  | None => (Raise (NameError "package_item"), w)
  | Some (algorithm, checksum) =>
      match data with
      | None => (Raise (TypeError "object supporting the buffer API required"), w)
      | Some d =>
          if String.eqb (hexdigest (lower algorithm) d) checksum
          then (Return (), w) else (ChecksumMismatch, w)
      end
  end.
Proof. apply verify_checksum_loop_run. Qed.

(** One turn of the loop, case by case. *)
Lemma find_package_body_run `{Collaborators} self package_name package_file
    downloaded w :
  _find_package_body self package_name package_file downloaded w =
  match package_file !! "name" with
  | None => (Raise (KeyError "name"), w)
  | Some name =>
      match candidate_prefix name with
      | None =>
          (Exit ("Error parsing package name string " +:+ name +:+ "."), w)
      | Some prefix =>
          if bool_decide (prefix ∈ downloaded) then
            (Return (Continue downloaded), w)
          else
            let w1 := add_request (index_url self name) w in
            match served (index_url self name) with
            | Some (x :: data) =>
                match recorded_checksum (_checksum_algorithms self)
                        package_file with
                | None => (Raise (NameError "package_item"), w1)
                | Some (algorithm, checksum) =>
                    if String.eqb (hexdigest (lower algorithm) (x :: data))
                         checksum
                    then
                      match decompress (x :: data) with
                      | Return decompressed =>
                          match (scan_paragraphs package_name
                                   (Packages_iter_paragraphs decompressed)
                                   w1).1 with
                          | Return (Some section) =>
                              (Return (ReturnSection section), w1)
                          | Return None =>
                              (Return (Continue (downloaded ++ [prefix])), w1)
                          | Exit msg => (Exit msg, w1)
                          | Raise e => (Raise e, w1)
                          end
                      | Exit msg => (Exit msg, w1)
                      | Raise e => (Raise e, w1)
                      end
                    else (ChecksumMismatch, w1)
                end
            | _ =>
                match connection_error (index_url self name) with
                | Some e => (Raise e, w1)
                | None => (Return (Continue downloaded), w1)
                end
            end
      end
  end.
Proof.
  unfold _find_package_body, candidate_prefix, getitem.
  destruct (package_file !! "name") as [name|]; [| reflexivity].
  rewrite bind_run, ret_run. cbv beta iota.
  destruct (match_packages_name name) as [[group1 group2]|]; [| reflexivity].
  cbv zeta. destruct (bool_decide _); [reflexivity |].
  unfold _try_fetch_archive_element.
  rewrite bind_run, fetch_archive_element_run. fold (index_url self name).
  destruct (connection_error (index_url self name)) as [e|] eqn:Ha.
  { unfold served. rewrite Ha. reflexivity. }
  destruct (served (index_url self name)) as [[|x data]|];
    cbv beta iota; try reflexivity.
  change (truthy (Some (x :: data))) with true. cbv iota.
  rewrite bind_run, verify_checksum_run.
  destruct (recorded_checksum _ package_file) as [[algorithm checksum]|];
    [| reflexivity].
  destruct (String.eqb _ checksum); [| reflexivity].
  cbv beta iota. rewrite bind_run. unfold lift at 1. simpl default.
  destruct (decompress (x :: data)) as [d|msg|e]; try reflexivity.
  rewrite bind_run.
  pose proof (scan_paragraphs_world package_name (Packages_iter_paragraphs d)
                (add_request (index_url self name) w)) as Hw.
  destruct (scan_paragraphs package_name (Packages_iter_paragraphs d)
              (add_request (index_url self name) w)) as [[[s|]|msg|e] w2];
    simpl in Hw; subst w2; reflexivity.
Qed.


(** A fetched index that does not fit its recorded checksum ends the
    lookup at once. *)
Lemma find_package_body_mismatch `{Collaborators} self package_name
    package_file downloaded w name prefix data algorithm checksum :
  package_file !! "name" = Some name →
  candidate_prefix name = Some prefix →
  prefix ∉ downloaded →
  served (index_url self name) = Some data → data ≠ [] →
  recorded_checksum (_checksum_algorithms self) package_file
    = Some (algorithm, checksum) →
  hexdigest (lower algorithm) data ≠ checksum →
  _find_package_body self package_name package_file downloaded w
    = (ChecksumMismatch, add_request (index_url self name) w).
Proof.
  intros Hn Hp Hin Hs Hd Hr Hne. rewrite find_package_body_run, Hn, Hp.
  rewrite bool_decide_eq_false_2 by assumption. cbv zeta. rewrite Hs.
  destruct data as [|x data]; [congruence |]. rewrite Hr.
  apply String.eqb_neq in Hne. rewrite Hne. reflexivity.
Qed.



Lemma find_package_body_return_inv `{Collaborators} self package_name
    package_file downloaded w section w' :
  _find_package_body self package_name package_file downloaded w
    = (Return (ReturnSection section), w') →
  ∃ name data algorithm decompressed before after,
    package_file !! "name" = Some name ∧
    served (index_url self name) = Some data ∧ data ≠ [] ∧
    recorded_checksum (_checksum_algorithms self) package_file
      = Some (algorithm, hexdigest (lower algorithm) data) ∧
    decompress data = Return decompressed ∧
    Packages_iter_paragraphs decompressed = before ++ section :: after ∧
    Forall (other_package package_name) before ∧
    section !! "Package" = Some package_name ∧
    w' = add_request (index_url self name) w.
Proof.
  rewrite find_package_body_run. intros E.
  destruct (package_file !! "name") as [name|] eqn:Hn; [| discriminate].
  destruct (candidate_prefix name) as [prefix|] eqn:Hp; [| discriminate].
  destruct (bool_decide (prefix ∈ downloaded)); [discriminate |].
  cbv zeta in E.
  destruct (served (index_url self name)) as [[|x data]|] eqn:Hs;
    try (destruct (connection_error (index_url self name)); discriminate).
  destruct (recorded_checksum _ package_file) as [[algorithm checksum]|]
    eqn:Hr; [| discriminate].
  destruct (String.eqb _ checksum) eqn:Hc; [| discriminate].
  apply String.eqb_eq in Hc. subst checksum.
  destruct (decompress (x :: data)) as [d|msg|e] eqn:Hz; try discriminate.
  destruct (scan_paragraphs package_name (Packages_iter_paragraphs d)
              (add_request (index_url self name) w))
    as [[[s|]|msg|e] w2] eqn:Hscan; simpl in E; try discriminate.
  injection E as <- <-.
  destruct (scan_paragraphs_some_inv _ _ _ _ _ Hscan)
    as (before & after & Hps & Hb & Hsec).
  exists name, (x :: data), algorithm, d, before, after.
  split; [reflexivity |]. split; [assumption |]. split; [discriminate |].
  split; [reflexivity |]. split; [assumption |]. auto.
Qed.

(** *** The loop over the candidates *)

Lemma find_package_loop_app `{Collaborators} self package_name passed rest
    downloaded w downloaded' w' :
  run_candidates self package_name passed downloaded w = Some (downloaded', w') →
  _find_package_loop self package_name (passed ++ rest) downloaded w
    = _find_package_loop self package_name rest downloaded' w'.
Proof.
  revert downloaded w.
  induction passed as [|package_file passed IH]; simpl; intros downloaded w E.
  - injection E as <- <-. reflexivity.
  - rewrite bind_run.
    destruct (_find_package_body self package_name package_file downloaded w)
      as [[[d1|s]|msg|e] w1]; try discriminate.
    apply IH. exact E.
Qed.


(** The loop returns a section only from the turn of some candidate, after
    the candidates before it let the loop go on. *)
Lemma find_package_loop_some_inv `{Collaborators} self package_name
    package_files downloaded w section w' :
  _find_package_loop self package_name package_files downloaded w
    = (Return (Some section), w') →
  ∃ passed package_file rest downloaded1 w1,
    package_files = passed ++ package_file :: rest ∧
    run_candidates self package_name passed downloaded w
      = Some (downloaded1, w1) ∧
    _find_package_body self package_name package_file downloaded1 w1
      = (Return (ReturnSection section), w').
Proof.
  revert downloaded w.
  induction package_files as [|package_file rest IH]; simpl;
    intros downloaded w; [discriminate |].
  rewrite bind_run.
  destruct (_find_package_body self package_name package_file downloaded w)
    as [[[d1|s]|msg|e] w1] eqn:Ebody; try discriminate.
  - intros E. destruct (IH _ _ E) as (passed & pf & rest' & d2 & w2 & -> & Hrun & Hb).
    exists (package_file :: passed), pf, rest', d2, w2.
    split; [reflexivity |]. split; [| exact Hb].
    simpl. rewrite Ebody. exact Hrun.
  - intros E. injection E as <- <-.
    exists [], package_file, rest, downloaded, w. auto.
Qed.





(** ** The payload *)

Lemma download_package_run `{Collaborators} self package dest w :
  _download_package self package dest w =
  match package !! "Filename" with
  | None => (Raise (KeyError "Filename"), w)
  | Some full_name =>
      match match_deb_name full_name with
      | None =>
          (Raise (AttributeError "'NoneType' object has no attribute 'group'"), w)
      | Some package_name =>
          let w1 := add_request (payload_url self full_name) w in
          match served (payload_url self full_name) with
          | None =>
              match connection_error (payload_url self full_name) with
              | Some e => (Raise e, w1)
              | None => (RepositoryUnreachable (payload_url self full_name), w1)
              end
          | Some data =>
              match recorded_checksum (_checksum_algorithms self) package with
              | None => (Raise (NameError "package_item"), w1)
              | Some (algorithm, checksum) =>
                  if String.eqb (hexdigest (lower algorithm) data) checksum
                  then
                    match open_error (path_join dest package_name) with
                    | Some e => (Raise e, w1)
                    | None =>
                        (Return (path_join dest package_name),
                         add_file (path_join dest package_name) data w1)
                    end
                  else (ChecksumMismatch, w1)
              end
          end
      end
  end.
Proof.
  unfold _download_package, getitem.
  destruct (package !! "Filename") as [full_name|]; [| reflexivity].
  rewrite bind_run, ret_run. cbv beta iota.
  destruct (match_deb_name full_name) as [package_name|]; [| reflexivity].
  cbv zeta. rewrite bind_run, fetch_archive_element_run.
  fold (payload_url self full_name).
  destruct (connection_error (payload_url self full_name)) as [e|] eqn:Ha.
  { unfold served. rewrite Ha. reflexivity. }
  destruct (served (payload_url self full_name)) as [data|]; [| reflexivity].
  cbv beta iota. rewrite bind_run, verify_checksum_run.
  destruct (recorded_checksum _ package) as [[algorithm checksum]|];
    [| reflexivity].
  destruct (String.eqb _ checksum); [| reflexivity].
  cbv beta iota. rewrite bind_run, write_file_run.
  destruct (open_error (path_join dest package_name)); reflexivity.
Qed.

(** ** The third stage *)

Lemma find_package_some_inv `{Collaborators} self package_name package_files
    w section w' :
  _find_package_in_package_files self package_name package_files w
    = (Return (Some section), w') →
  ∃ passed package_file rest downloaded1 w1 name data algorithm decompressed
      before after,
    package_files = passed ++ package_file :: rest ∧
    run_candidates self package_name passed [] w = Some (downloaded1, w1) ∧
    package_file !! "name" = Some name ∧
    served (index_url self name) = Some data ∧ data ≠ [] ∧
    recorded_checksum (_checksum_algorithms self) package_file
      = Some (algorithm, hexdigest (lower algorithm) data) ∧
    decompress data = Return decompressed ∧
    Packages_iter_paragraphs decompressed = before ++ section :: after ∧
    Forall (other_package package_name) before ∧
    section !! "Package" = Some package_name ∧
    w' = add_request (index_url self name) w1.
Proof.
  intros E. unfold _find_package_in_package_files in E.
  destruct (find_package_loop_some_inv _ _ _ _ _ _ _ E)
    as (passed & pf & rest & d1 & w1 & Hl & Hrun & Hbody).
  destruct (find_package_body_return_inv _ _ _ _ _ _ _ Hbody)
    as (name & data & alg & dec & before & after & Hrest).
  exists passed, pf, rest, d1, w1, name, data, alg, dec, before, after.
  tauto.
Qed.

Lemma section_with_package_truthy `{Python} (section : item) package_name :
  section !! "Package" = Some package_name → truthy (Some section) = true.
Proof.
  intros Hs. unfold truthy, option_truthy, truthy, Deb822Dict_truthy.
  rewrite bool_decide_eq_false_2; [reflexivity |].
  intros E. unfold lookup, Deb822Dict_lookup in Hs.
  rewrite E, lookup_empty in Hs. discriminate.
Qed.

Lemma locate_found `{Collaborators} self package_name release_file dest w
    package_files w1 package w2 :
  _parse_release_file self release_file w = (Return package_files, w1) →
  _find_package_in_package_files self package_name package_files w1
    = (Return (Some package), w2) →
  download_locate_and_fetch self package_name release_file dest w
    = _download_package self package dest w2.
Proof.
  intros Hparse Hfind. unfold download_locate_and_fetch.
  rewrite (bind_return _ _ _ _ _ Hparse), (bind_return _ _ _ _ _ Hfind).
  destruct (find_package_some_inv _ _ _ _ _ _ Hfind)
    as (? & ? & ? & ? & ? & ? & ? & ? & ? & ? & ? & Hinv).
  rewrite (section_with_package_truthy package package_name) by tauto.
  reflexivity.
Qed.


Lemma locate_find_exits `{Collaborators} self package_name release_file dest w
    package_files w1 msg w2 :
  _parse_release_file self release_file w = (Return package_files, w1) →
  _find_package_in_package_files self package_name package_files w1
    = (Exit msg, w2) →
  download_locate_and_fetch self package_name release_file dest w
    = (Exit msg, w2).
Proof.
  intros Hparse Hfind. unfold download_locate_and_fetch.
  rewrite (bind_return _ _ _ _ _ Hparse), (bind_exit _ _ _ _ _ Hfind).
  reflexivity.
Qed.







(** ** Candidate names and their prefixes *)

Lemma append_assoc (a b c : string) : (a +:+ b) +:+ c = a +:+ (b +:+ c).
Proof.
  induction a as [|x a IH]; [reflexivity |].
  change (String x ((a +:+ b) +:+ c) = String x (a +:+ (b +:+ c))).
  rewrite IH. reflexivity.
Qed.

Lemma has_char_cons (c d : ascii) (s : string) :
  has_char c (String d s) = Ascii.eqb d c || has_char c s.
Proof.
  unfold has_char. simpl. destruct (Ascii.eqb d c); reflexivity.
Qed.

Lemma has_char_app (c : ascii) (a b : string) :
  has_char c (a +:+ b) = has_char c a || has_char c b.
Proof.
  induction a as [|x a IH]; [reflexivity |].
  change (String x a +:+ b) with (String x (a +:+ b)).
  rewrite !has_char_cons, IH, orb_assoc. reflexivity.
Qed.

(** The first group takes all of a line that precedes a matching tail. *)
Lemma match_packages_name_app (group1 tail group2 : string) :
  has_char newline group1 = false →
  match_packages_name tail = Some (EmptyString, group2) →
  match_packages_name (group1 +:+ tail) = Some (group1, group2).
Proof.
  intros Hnl Htail. induction group1 as [|c g IH]; [exact Htail |].
  rewrite has_char_cons in Hnl. apply orb_false_elim in Hnl as [Hc Hg].
  change (String c g +:+ tail) with (String c (g +:+ tail)).
  cbn [match_packages_name]. rewrite Hc, (IH Hg). reflexivity.
Qed.

(** The prefix of a candidate path is its component and architecture
    part. *)
Lemma candidate_prefix_of_path (component architecture compression : string) :
  has_char newline component = false →
  has_char newline architecture = false →
  compression ∈ ["gz"; "bz2"; "xz"] →
  candidate_prefix (component +:+ "/binary-" +:+ architecture
                      +:+ "/Packages." +:+ compression)
    = Some (replace_char "/" "_"
              (component +:+ "/binary-" +:+ architecture +:+ "/")).
Proof.
  intros Hc Ha Hz. unfold candidate_prefix.
  replace (component +:+ "/binary-" +:+ architecture +:+ "/Packages."
             +:+ compression)
    with ((component +:+ "/binary-" +:+ architecture +:+ "/")
            +:+ ("Packages." +:+ compression))
    by (rewrite !append_assoc; reflexivity).
  rewrite (match_packages_name_app _ _ compression); [reflexivity | |].
  - rewrite !has_char_app, Hc, Ha. reflexivity.
  - rewrite !elem_of_cons, elem_of_nil in Hz.
    destruct Hz as [-> | [-> | [-> | []]]]; reflexivity.
Qed.

(** The candidate paths are the paths of the triples. *)
Lemma packages_filter_spec self name :
  name ∈ packages_filter self ↔
  ∃ component architecture compression,
    component ∈ comps (_source self) ∧
    architecture ∈ _architectures self ∧
    compression ∈ _compressions self ∧
    name = component +:+ "/binary-" +:+ architecture
             +:+ "/Packages." +:+ compression.
Proof.
  unfold packages_filter. rewrite list_elem_of_bind. split.
  - intros (c & Hin & Hc). apply list_elem_of_bind in Hin as (a & Hin & Ha).
    apply list_elem_of_bind in Hin as (z & Hin & Hz).
    apply list_elem_of_singleton in Hin. eauto 10.
  - intros (c & a & z & Hc & Ha & Hz & ->).
    exists c. split; [| exact Hc]. apply list_elem_of_bind.
    exists a. split; [| exact Ha]. apply list_elem_of_bind.
    exists z. split; [| exact Hz]. apply list_elem_of_singleton. reflexivity.
Qed.





(** C4, as the code has it: an index that arrives with a body, after the
    candidates before it were passed over, and does not fit the digest
    recorded for it ends the lookup, and with it [download], with the
    message of [ChecksumMismatch]; the last request of the call is the one
    for that index, so no later candidate is tried and, the outcome being
    fixed before the index is decompressed, none of its paragraphs is
    looked at. *)
Theorem corrupt_index_aborts `{Collaborators} self package_name passed
    package_file rest w downloaded1 w1 name prefix data algorithm checksum :
  run_candidates self package_name passed [] w = Some (downloaded1, w1) →
  package_file !! "name" = Some name →
  candidate_prefix name = Some prefix → prefix ∉ downloaded1 →
  served (index_url self name) = Some data → data ≠ [] →
  recorded_checksum (_checksum_algorithms self) package_file
    = Some (algorithm, checksum) →
  hexdigest (lower algorithm) data ≠ checksum →
  _find_package_in_package_files self package_name
    (passed ++ package_file :: rest) w
    = (ChecksumMismatch, add_request (index_url self name) w1) ∧
  (∀ dest w0 release_file signature_file wa wb,
     package_name ≠ "" →
     download_release self (mkdtemp (files w0)) w0
       = (Return (release_file, signature_file), wa) →
     download_authenticate self package_name (mkdtemp (files w0)) release_file
       signature_file wa = (Return (), wb) →
     _parse_release_file self release_file wb
       = (Return (passed ++ package_file :: rest), w) →
     download self (Some package_name) dest w0
       = (ChecksumMismatch,
          remove_tree (mkdtemp (files w0))
            (add_request (index_url self name) w1))).
Proof.
  intros Hrun Hn Hp Hin Hs Hd Hr Hne.
  assert (Hfind : _find_package_in_package_files self package_name
                    (passed ++ package_file :: rest) w
                  = (ChecksumMismatch, add_request (index_url self name) w1)).
  { unfold _find_package_in_package_files.
    rewrite (find_package_loop_app _ _ _ _ _ _ _ _ Hrun). simpl.
    rewrite bind_run.
    rewrite (find_package_body_mismatch _ _ _ _ _ _ _ _ _ _
               Hn Hp Hin Hs Hd Hr Hne).
    reflexivity. }
  split; [exact Hfind |].
  intros dest w0 rf sf wa wb Hname Hrel Hauth Hparse.
  rewrite (download_after_authenticate _ _ _ _ _ _ _ _ Hname Hrel Hauth).
  unfold ChecksumMismatch in Hfind.
  rewrite (locate_find_exits _ _ _ _ _ _ _ _ _ Hparse Hfind). reflexivity.
Qed.

Lemma corrupt_index_aborts_witness :
  let _ := Fixture.collaborators Fixture.corrupt_index in
  ∃ w',
    download (Fixture.downloader Fixture.repository None) (Some "curl")
      "/tmp/out" Fixture.w0 = (ChecksumMismatch, w') ∧
    requests w' = [Fixture.dists +:+ "/InRelease"; Fixture.gz_url].
Proof.
  intros env.
  pose (w := add_log WARNING
               "Warning: Package curl will get downloaded without verification!"
               (add_file "/tmp/tmpedi/InRelease" (Fixture.b "INRELEASE")
                  (add_request (Fixture.dists +:+ "/InRelease") Fixture.w0))).
  destruct (corrupt_index_aborts
              (Fixture.downloader Fixture.repository None) "curl" []
              (Fixture.row "sha256" Fixture.gz_name "INDEX")
              [Fixture.row "sha256" Fixture.xz_name "INDEXXZ"]
              w [] w Fixture.gz_name "main_binary-amd64_" (Fixture.b "INDEY")
              "SHA256" "sha256:INDEX")
    as [_ Hdownload].
  - reflexivity.
  - vm_compute. reflexivity.
  - vm_compute. reflexivity.
  - intros Hin. apply elem_of_nil in Hin. contradiction.
  - vm_compute. reflexivity.
  - discriminate.
  - vm_compute. reflexivity.
  - vm_compute. discriminate.
  - eexists. split.
    + apply (Hdownload "/tmp/out" Fixture.w0 "/tmp/tmpedi/InRelease" None
               (add_file "/tmp/tmpedi/InRelease" (Fixture.b "INRELEASE")
                  (add_request (Fixture.dists +:+ "/InRelease") Fixture.w0))
               w);
        [discriminate | vm_compute; reflexivity | vm_compute; reflexivity
        | vm_compute; reflexivity].
    + reflexivity.
Defined.

(** C4 as stated fails: the gzip index arrives with status 200 and an
    empty body, which does not fit the digest recorded for it; [download]
    neither verifies it nor exits, but goes on to the xz index and
    returns. *)
Lemma empty_index_is_skipped :
  let _ := Fixture.collaborators Fixture.empty_index in
  http Fixture.gz_url = (200, []) ∧
  recorded_checksum ["SHA512"; "SHA256"]
    (Fixture.row "sha256" Fixture.gz_name "INDEX")
    = Some ("SHA256", "sha256:INDEX") ∧
  hexdigest "sha256" [] ≠ "sha256:INDEX" ∧
  (download (Fixture.downloader Fixture.repository None) (Some "curl")
     "/tmp/out" Fixture.w0).1 = Return "/tmp/out/curl_7.74.0_amd64.deb" ∧
  requests (download (Fixture.downloader Fixture.repository None) (Some "curl")
              "/tmp/out" Fixture.w0).2
    = [Fixture.dists +:+ "/InRelease"; Fixture.gz_url; Fixture.xz_url;
       Fixture.deb_url].
Proof.
  intros env. split; [reflexivity |]. split; [vm_compute; reflexivity |].
  split; [vm_compute; discriminate |].
  split; vm_compute; reflexivity.
Qed.

(** ** What the stages do to the files *)

Lemma prefix_append (a b c : string) :
  String.prefix (a +:+ b) (a +:+ c) = String.prefix b c.
Proof.
  induction a as [|x a IH]; [reflexivity |].
  change (String.prefix (String x (a +:+ b)) (String x (a +:+ c))
          = String.prefix b c).
  cbn [String.prefix]. destruct (ascii_dec x x); [exact IH | congruence].
Qed.

Lemma prefix_empty (s : string) : String.prefix "" s = true.
Proof. destruct s; reflexivity. Qed.

(** A relative name joined to a directory lies below that directory. *)
Lemma under_path_join (dir name : string) :
  String.prefix "/" name = false → under dir (path_join dir name) = true.
Proof.
  intros Hrel. unfold under, path_join. rewrite Hrel.
  change (String.prefix "/" "") with false. cbv iota.
  destruct (negb (truthy dir) || ends_with_slash dir).
  - rewrite prefix_append. apply prefix_empty.
  - rewrite prefix_append. change ("/" +:+ "") with "/".
    change ("/" +:+ name) with (String "/" name). cbn [String.prefix].
    destruct (ascii_dec "/" "/"); [apply prefix_empty | congruence].
Qed.

Lemma remove_tree_lookup (dir : string) (w : world) (path : string) :
  files (remove_tree dir w) !! path
    = if under dir path then None else files w !! path.
Proof.
  unfold remove_tree. simpl. rewrite map_lookup_filter.
  destruct (files w !! path) as [d|]; simpl.
  - destruct (under dir path) eqn:E.
    + rewrite option_guard_False; [reflexivity |]. simpl. auto.
    + rewrite option_guard_True; [reflexivity |]. simpl. auto.
  - destruct (under dir path); reflexivity.
Qed.

Lemma insert_lookup_outside dir name (data : bytes)
    (m : gmap string (list byte)) path :
  String.prefix "/" name = false → under dir path = false →
  <[path_join dir name := data]> m !! path = m !! path.
Proof.
  intros Hrel Hout. apply lookup_insert_ne. intros <-.
  rewrite under_path_join in Hout by assumption. discriminate.
Qed.

(** The first stage writes below the temporary directory only. *)
Lemma download_release_files `{Collaborators} self tempdir w path :
  under tempdir path = false →
  files (download_release self tempdir w).2 !! path = files w !! path.
Proof.
  intros Hout. rewrite download_release_run. cbv zeta.
  reply_cases; cbn [snd add_file add_request files];
    rewrite ?insert_lookup_outside by (reflexivity || assumption);
    reflexivity.
Qed.

(** The second stage leaves the files and the requests as they are. *)
Lemma download_authenticate_world `{Collaborators} self package_name tempdir
    release_file signature_file w r w' :
  download_authenticate self package_name tempdir release_file signature_file w
    = (r, w') →
  files w' = files w ∧ requests w' = requests w.
Proof.
  unfold download_authenticate.
  destruct (truthy (_repository_key self)).
  2:{ intros E. injection E as _ <-. split; reflexivity. }
  rewrite bind_run. unfold lift at 1.
  destruct (fetch_repository_key _) as [kd|msg|e];
    try (intros E; injection E as _ <-; split; reflexivity).
  rewrite bind_run. unfold lift at 1.
  destruct (build_keyring _ _ _) as [kr|msg|e];
    try (intros E; injection E as _ <-; split; reflexivity).
  rewrite bind_run. unfold _verify_signature.
  rewrite bind_run. unfold run at 1. rewrite bind_run. unfold logging at 1.
  destruct (search_line_start "[GNUPG:] GOODSIG" _
            && search_line_start "[GNUPG:] VALIDSIG" _);
    intros E; injection E as _ <-; split; reflexivity.
Qed.

Lemma parse_release_file_world `{Collaborators} self release_file w :
  (_parse_release_file self release_file w).2 = w.
Proof.
  unfold _parse_release_file, read_file. rewrite bind_run.
  destruct (files w !! release_file) as [content|]; [| reflexivity].
  destruct (Release_iter_paragraphs content) as [|main rest]; [reflexivity |].
  cbv zeta.
  destruct (negb (truthy (if negb (truthy (main !! "SHA512"))
                          then main !! "SHA256" else main !! "SHA512")));
    reflexivity.
Qed.

Lemma find_package_body_files `{Collaborators} self package_name package_file
    downloaded w :
  files (_find_package_body self package_name package_file downloaded w).2
    = files w.
Proof.
  rewrite find_package_body_run.
  destruct (package_file !! "name") as [name|]; [| reflexivity].
  destruct (candidate_prefix name) as [prefix|]; [| reflexivity].
  destruct (bool_decide (prefix ∈ downloaded)); [reflexivity |].
  cbv zeta.
  destruct (served (index_url self name)) as [[|x data]|];
    try (destruct (connection_error (index_url self name)); reflexivity).
  destruct (recorded_checksum _ package_file) as [[algorithm checksum]|];
    [| reflexivity].
  destruct (String.eqb _ checksum); [| reflexivity].
  destruct (decompress (x :: data)) as [d|msg|e]; try reflexivity.
  destruct (scan_paragraphs package_name (Packages_iter_paragraphs d) _).1
    as [[s|]|msg|e]; reflexivity.
Qed.

Lemma find_package_loop_files `{Collaborators} self package_name package_files
    downloaded w :
  files (_find_package_loop self package_name package_files downloaded w).2
    = files w.
Proof.
  revert downloaded w.
  induction package_files as [|package_file rest IH]; simpl;
    intros downloaded w; [reflexivity |].
  rewrite bind_run.
  pose proof (find_package_body_files self package_name package_file
                downloaded w) as Hbody.
  destruct (_find_package_body self package_name package_file downloaded w)
    as [[[d1|s]|msg|e] w1]; simpl in Hbody; try exact Hbody.
  rewrite IH. exact Hbody.
Qed.

(** The payload is written only when [_download_package] returns. *)
Lemma download_package_files `{Collaborators} self package dest w :
  (∀ path, (_download_package self package dest w).1 ≠ Return path) →
  files (_download_package self package dest w).2 = files w.
Proof.
  rewrite download_package_run.
  destruct (package !! "Filename") as [full_name|]; [| reflexivity].
  destruct (match_deb_name full_name) as [n|]; [| reflexivity].
  cbv zeta.
  destruct (served (payload_url self full_name)) as [data|];
    [| destruct (connection_error _); reflexivity].
  destruct (recorded_checksum _ package) as [[algorithm checksum]|];
    [| reflexivity].
  destruct (String.eqb _ checksum); [| reflexivity].
  destruct (open_error _); [reflexivity |].
  intros Hne. exfalso. exact (Hne _ eq_refl).
Qed.

(** C7: a payload that does not fit the digest recorded in its control
    entry makes [_download_package], and with it [download], exit with the
    message of [ChecksumMismatch] before anything is written: after the
    call the files are those from before it (the temporary directory being
    gone), so the destination directory holds no file of the payload, not
    even a partial one. *)
Theorem corrupt_payload_leaves_no_file `{Collaborators} self package full_name
    name data algorithm checksum :
  package !! "Filename" = Some full_name →
  match_deb_name full_name = Some name →
  served (payload_url self full_name) = Some data →
  recorded_checksum (_checksum_algorithms self) package
    = Some (algorithm, checksum) →
  hexdigest (lower algorithm) data ≠ checksum →
  (∀ dest w,
     _download_package self package dest w
       = (ChecksumMismatch, add_request (payload_url self full_name) w)) ∧
  (∀ package_name dest w0 release_file signature_file wa wb package_files wc wd,
     package_name ≠ "" →
     download_release self (mkdtemp (files w0)) w0
       = (Return (release_file, signature_file), wa) →
     download_authenticate self package_name (mkdtemp (files w0)) release_file
       signature_file wa = (Return (), wb) →
     _parse_release_file self release_file wb = (Return package_files, wc) →
     _find_package_in_package_files self package_name package_files wc
       = (Return (Some package), wd) →
     ∃ w', download self (Some package_name) dest w0 = (ChecksumMismatch, w') ∧
           ∀ path, files w' !! path
                   = if under (mkdtemp (files w0)) path then None
                     else files w0 !! path).
Proof.
  intros Hfn Hname Hs Hr Hne.
  assert (Hpayload : ∀ dest w,
            _download_package self package dest w
            = (ChecksumMismatch, add_request (payload_url self full_name) w)).
  { intros dest w. rewrite download_package_run, Hfn, Hname. cbv zeta.
    rewrite Hs, Hr. apply String.eqb_neq in Hne. rewrite Hne. reflexivity. }
  split; [exact Hpayload |].
  intros package_name dest w0 rf sf wa wb pfs wc wd Hn Hrel Hauth Hparse Hfind.
  exists (remove_tree (mkdtemp (files w0))
            (add_request (payload_url self full_name) wd)).
  split.
  - rewrite (download_after_authenticate _ _ _ _ _ _ _ _ Hn Hrel Hauth).
    rewrite (locate_found _ _ _ _ _ _ _ _ _ Hparse Hfind), Hpayload.
    reflexivity.
  - intros path. rewrite remove_tree_lookup.
    destruct (under (mkdtemp (files w0)) path) eqn:Hout; [reflexivity |].
    cbn [add_request files].
    pose proof (find_package_loop_files self package_name pfs [] wc) as Hf.
    unfold _find_package_in_package_files in Hfind. rewrite Hfind in Hf.
    simpl in Hf. rewrite Hf.
    pose proof (parse_release_file_world self rf wb) as Hp.
    rewrite Hparse in Hp. simpl in Hp. subst wc.
    destruct (download_authenticate_world _ _ _ _ _ _ _ _ Hauth) as [-> _].
    pose proof (download_release_files self (mkdtemp (files w0)) w0 path Hout)
      as Hrelf.
    rewrite Hrel in Hrelf. exact Hrelf.
Qed.

Lemma corrupt_payload_leaves_no_file_witness :
  let _ := Fixture.collaborators Fixture.corrupt_payload in
  http Fixture.deb_url = (200, Fixture.b "DEC") ∧
  download (Fixture.downloader Fixture.repository None) (Some "curl")
    "/tmp/out" Fixture.w0
    = (ChecksumMismatch,
       World [Fixture.dists +:+ "/InRelease"; Fixture.gz_url; Fixture.deb_url]
         ∅
         [(WARNING,
           "Warning: Package curl will get downloaded without verification!")]).
Proof.
  intros env. split; [reflexivity |].
  destruct (corrupt_payload_leaves_no_file
              (Fixture.downloader Fixture.repository None) Fixture.curl
              "pool/main/c/curl/curl_7.74.0_amd64.deb"
              "curl_7.74.0_amd64.deb" (Fixture.b "DEC") "SHA256" "sha256:DEB")
    as [Hpayload _].
  - vm_compute. reflexivity.
  - vm_compute. reflexivity.
  - vm_compute. reflexivity.
  - vm_compute. reflexivity.
  - vm_compute. discriminate.
  - pose (w := add_log WARNING
                 "Warning: Package curl will get downloaded without verification!"
                 (add_file "/tmp/tmpedi/InRelease" (Fixture.b "INRELEASE")
                    (add_request (Fixture.dists +:+ "/InRelease") Fixture.w0))).
    rewrite (download_after_authenticate
               (Fixture.downloader Fixture.repository None) "curl" "/tmp/out"
               Fixture.w0 "/tmp/tmpedi/InRelease" None
               (add_file "/tmp/tmpedi/InRelease" (Fixture.b "INRELEASE")
                  (add_request (Fixture.dists +:+ "/InRelease") Fixture.w0))
               w);
      [| discriminate | vm_compute; reflexivity | vm_compute; reflexivity].
    rewrite (locate_found
               (Fixture.downloader Fixture.repository None) "curl"
               "/tmp/tmpedi/InRelease" "/tmp/out" w
               [Fixture.row "sha256" Fixture.gz_name "INDEX"] w
               Fixture.curl (add_request Fixture.gz_url w));
      [| vm_compute; reflexivity | vm_compute; reflexivity].
    rewrite Hpayload. vm_compute. reflexivity.
Defined.

(** ** The name of the payload file *)

Lemma ends_with_cons (suffix : string) (c : ascii) (s : string) :
  ends_with suffix (String c s)
    = String.eqb suffix (String c s) || ends_with suffix s.
Proof. reflexivity. Qed.

(** On one line that ends in [deb], the group [(.*deb)] takes everything. *)
Lemma match_dot_star_deb_all (s : string) :
  has_char newline s = false → ends_with "deb" s = true →
  match_dot_star_deb s = Some s.
Proof.
  induction s as [|c s IH]; [discriminate |].
  rewrite has_char_cons, ends_with_cons.
  intros Hnl Hend. apply orb_false_elim in Hnl as [Hc Hs].
  cbn [match_dot_star_deb]. rewrite Hc.
  destruct (ends_with "deb" s) eqn:Hends.
  - rewrite (IH Hs eq_refl). reflexivity.
  - rewrite orb_false_r in Hend. apply String.eqb_eq in Hend.
    injection Hend as <- <-. reflexivity.
Qed.

Lemma match_deb_name_without_slash (s : string) :
  has_char "/" s = false → match_deb_name s = None.
Proof.
  induction s as [|c s IH]; [reflexivity |].
  rewrite has_char_cons. intros Hs. apply orb_false_elim in Hs as [Hc Hs].
  cbn [match_deb_name]. rewrite Hc, (IH Hs).
  destruct (Ascii.eqb c newline); reflexivity.
Qed.

(** After the last slash of a line, a name that ends in [deb] is the
    group of the match. *)
Lemma match_deb_name_app (dir base : string) :
  has_char newline dir = false → has_char newline base = false →
  has_char "/" base = false → ends_with "deb" base = true →
  match_deb_name (dir +:+ String "/" base) = Some base.
Proof.
  intros Hd Hb Hslash Hend. induction dir as [|c dir IH].
  - change (EmptyString +:+ String "/" base) with (String "/" base).
    cbn [match_deb_name].
    rewrite (match_deb_name_without_slash _ Hslash).
    rewrite (match_dot_star_deb_all _ Hb Hend). reflexivity.
  - rewrite has_char_cons in Hd. apply orb_false_elim in Hd as [Hc Hd].
    change (String c dir +:+ String "/" base)
      with (String c (dir +:+ String "/" base)).
    cbn [match_deb_name]. rewrite Hc, (IH Hd). reflexivity.
Qed.

Lemma basename_without_slash (s : string) :
  has_char "/" s = false → basename s = s.
Proof.
  destruct s as [|c s]; [reflexivity |]. intros Hs.
  cbn [basename]. rewrite Hs. reflexivity.
Qed.

(** A path with a slash is a directory part, a slash and its basename. *)
Lemma basename_split (s : string) :
  has_char "/" s = true →
  ∃ dir, s = dir +:+ String "/" (basename s) ∧
         has_char "/" (basename s) = false.
Proof.
  induction s as [|c s IH]; [discriminate |].
  intros Hs. cbn [basename]. rewrite Hs.
  destruct (has_char "/" s) eqn:Htail.
  - destruct (IH eq_refl) as (dir & E & Hb).
    exists (String c dir). split; [| exact Hb].
    change (String c dir +:+ String "/" (basename s))
      with (String c (dir +:+ String "/" (basename s))).
    rewrite <- E. reflexivity.
  - rewrite has_char_cons, Htail, orb_false_r in Hs.
    apply Ascii.eqb_eq in Hs. subst c.
    rewrite (basename_without_slash _ Htail).
    exists EmptyString. split; [reflexivity | exact Htail].
Qed.

Lemma ends_with_deb_after_slash (dir base : string) :
  ends_with "deb" (dir +:+ String "/" base) = true →
  has_char "/" base = false → ends_with "deb" base = true.
Proof.
  intros Hend Hb. induction dir as [|c dir IH].
  - change (EmptyString +:+ String "/" base) with (String "/" base) in Hend.
    rewrite ends_with_cons in Hend. exact Hend.
  - change (String c dir +:+ String "/" base)
      with (String c (dir +:+ String "/" base)) in Hend.
    rewrite ends_with_cons in Hend.
    apply orb_true_iff in Hend as [Heq | Hend]; [| exact (IH Hend)].
    apply String.eqb_eq in Heq.
    assert (Hslash : has_char "/" (String c (dir +:+ String "/" base)) = true).
    { rewrite has_char_cons, has_char_app, has_char_cons.
      rewrite Ascii.eqb_refl, orb_true_r, orb_true_r. reflexivity. }
    rewrite <- Heq in Hslash. discriminate.
Qed.

(** For a [Filename] on one line, with a slash and ending in [deb], the
    regular expression yields the basename. *)
Lemma match_deb_name_basename (full_name : string) :
  has_char newline full_name = false →
  has_char "/" full_name = true →
  ends_with "deb" full_name = true →
  match_deb_name full_name = Some (basename full_name).
Proof.
  intros Hnl Hslash Hend.
  destruct (basename_split _ Hslash) as (dir & E & Hb).
  rewrite E in Hnl, Hend |- * at 1.
  rewrite has_char_app, has_char_cons in Hnl.
  apply orb_false_elim in Hnl as [Hd Hnl].
  apply orb_false_elim in Hnl as [_ Hbn].
  apply match_deb_name_app; try assumption.
  eapply ends_with_deb_after_slash; eassumption.
Qed.

(** A returning [_download_package] has fetched the payload, found it to
    fit the recorded checksum and written it. *)
Lemma download_package_returns_inv `{Collaborators} self package dest w path w' :
  _download_package self package dest w = (Return path, w') →
  ∃ full_name name data algorithm,
    package !! "Filename" = Some full_name ∧
    match_deb_name full_name = Some name ∧
    served (payload_url self full_name) = Some data ∧
    recorded_checksum (_checksum_algorithms self) package
      = Some (algorithm, hexdigest (lower algorithm) data) ∧
    path = path_join dest name ∧
    w' = add_file path data (add_request (payload_url self full_name) w).
Proof.
  rewrite download_package_run. intros E.
  destruct (package !! "Filename") as [full_name|]; [| discriminate].
  destruct (match_deb_name full_name) as [n|] eqn:Hn; [| discriminate].
  cbv zeta in E.
  destruct (served (payload_url self full_name)) as [data|] eqn:Hs;
    [| destruct (connection_error _); discriminate].
  destruct (recorded_checksum _ package) as [[algorithm checksum]|] eqn:Hr;
    [| discriminate].
  destruct (String.eqb _ checksum) eqn:Hc; [| discriminate].
  destruct (open_error _); [discriminate |].
  apply String.eqb_eq in Hc. subst checksum. injection E as <- <-.
  exists full_name, n, data, algorithm.
  split; [reflexivity |]. split; [assumption |]. split; [assumption |].
  split; [reflexivity |]. split; reflexivity.
Qed.

(** A returning [download] went through its stages and returned from
    [_download_package] on the section that the lookup found. *)
Lemma download_returns_inv `{Collaborators} self package_name dest w0 path w' :
  package_name ≠ "" →
  download self (Some package_name) dest w0 = (Return path, w') →
  ∃ package full_name name data algorithm w3,
    package !! "Package" = Some package_name ∧
    package !! "Filename" = Some full_name ∧
    match_deb_name full_name = Some name ∧
    served (payload_url self full_name) = Some data ∧
    recorded_checksum (_checksum_algorithms self) package
      = Some (algorithm, hexdigest (lower algorithm) data) ∧
    path = path_join dest name ∧
    w' = remove_tree (mkdtemp (files w0)) (add_file path data w3).
Proof.
  intros Hn E. rewrite download_run in E by assumption. cbv zeta in E.
  destruct ((download_release self (mkdtemp (files w0)) ≫= _) w0)
    as [r w4] eqn:Ebody.
  injection E as -> <-.
  apply bind_returns in Ebody as ([rf sf] & wa & _ & Ebody).
  apply bind_returns in Ebody as ([] & wb & _ & Ebody).
  unfold download_locate_and_fetch in Ebody.
  apply bind_returns in Ebody as (pfs & wc & _ & Ebody).
  apply bind_returns in Ebody as (found & wd & Hfind & Ebody).
  destruct found as [package|]; [| discriminate].
  destruct (negb (truthy (Some package))); [discriminate |].
  simpl default in Ebody.
  destruct (find_package_some_inv _ _ _ _ _ _ Hfind)
    as (? & ? & ? & ? & ? & ? & ? & ? & ? & ? & ? & Hinv).
  destruct (download_package_returns_inv _ _ _ _ _ _ Ebody)
    as (full_name & name & data & algorithm & Hf & Hm & Hs & Hr & Hp & Hw).
  exists package, full_name, name, data, algorithm,
    (add_request (payload_url self full_name) wd).
  split; [tauto |]. split; [exact Hf |]. split; [exact Hm |].
  split; [exact Hs |]. split; [exact Hr |]. split; [exact Hp |].
  rewrite Hw. reflexivity.
Qed.

(** C8, as the code has it: every successful [download] has fetched the
    payload named by the [Filename] of the section found for the package,
    found it to fit the recorded checksum, written it to
    [os.path.join(dest, name)] and returned that path, where [name] is
    group 1 of the match of [.*/(.*deb)] on [Filename]; when [Filename] is
    one line that ends in [deb], that name is the basename of [Filename].
    Conversely, for such a [Filename] with a slash and a payload that fits
    its checksum, [_download_package] writes the payload under the
    basename and returns the path, provided that the file can be opened
    for writing; when it cannot, the call ends with the exception of
    [open] and nothing is written. *)
Theorem payload_written_under_deb_name `{Collaborators} self :
  (∀ package_name dest w0 path w',
     package_name ≠ "" →
     download self (Some package_name) dest w0 = (Return path, w') →
     ∃ package full_name name data algorithm,
       package !! "Package" = Some package_name ∧
       package !! "Filename" = Some full_name ∧
       match_deb_name full_name = Some name ∧
       served (payload_url self full_name) = Some data ∧
       recorded_checksum (_checksum_algorithms self) package
         = Some (algorithm, hexdigest (lower algorithm) data) ∧
       path = path_join dest name ∧
       (under (mkdtemp (files w0)) path = false →
        files w' !! path = Some data) ∧
       (has_char newline full_name = false →
        ends_with "deb" full_name = true →
        name = basename full_name)) ∧
  (∀ package full_name data algorithm dest w,
     package !! "Filename" = Some full_name →
     has_char newline full_name = false →
     has_char "/" full_name = true →
     ends_with "deb" full_name = true →
     served (payload_url self full_name) = Some data →
     recorded_checksum (_checksum_algorithms self) package
       = Some (algorithm, hexdigest (lower algorithm) data) →
     (open_error (path_join dest (basename full_name)) = None →
      _download_package self package dest w
        = (Return (path_join dest (basename full_name)),
           add_file (path_join dest (basename full_name)) data
             (add_request (payload_url self full_name) w))) ∧
     (∀ e, open_error (path_join dest (basename full_name)) = Some e →
      _download_package self package dest w
        = (Raise e, add_request (payload_url self full_name) w))).
Proof.
  split.
  - intros package_name dest w0 path w' Hn E.
    destruct (download_returns_inv _ _ _ _ _ _ Hn E)
      as (package & full_name & name & data & algorithm & w3
          & Hp & Hf & Hm & Hs & Hr & Hpath & Hw).
    exists package, full_name, name, data, algorithm.
    split; [exact Hp |]. split; [exact Hf |]. split; [exact Hm |].
    split; [exact Hs |]. split; [exact Hr |]. split; [exact Hpath |].
    split.
    + intros Hout. rewrite Hw, remove_tree_lookup, Hout.
      apply lookup_insert_eq.
    + intros Hnl Hend.
      destruct (has_char "/" full_name) eqn:Hslash.
      * rewrite (match_deb_name_basename _ Hnl Hslash Hend) in Hm.
        injection Hm as <-. reflexivity.
      * rewrite (match_deb_name_without_slash _ Hslash) in Hm. discriminate.
  - intros package full_name data algorithm dest w Hf Hnl Hslash Hend Hs Hr.
    rewrite download_package_run, Hf.
    rewrite (match_deb_name_basename _ Hnl Hslash Hend). cbv zeta.
    rewrite Hs, Hr, String.eqb_refl.
    split; [intros Ho | intros e Ho]; rewrite Ho; reflexivity.
Qed.

Lemma payload_written_under_deb_name_witness :
  let _ := Fixture.collaborators Fixture.plain in
  ∃ package full_name name data algorithm,
    package !! "Package" = Some "curl" ∧
    package !! "Filename" = Some full_name ∧
    match_deb_name full_name = Some name ∧
    served (payload_url (Fixture.downloader Fixture.repository None) full_name)
      = Some data ∧
    recorded_checksum ["SHA512"; "SHA256"] package
      = Some (algorithm, hexdigest (lower algorithm) data) ∧
    "/tmp/out/curl_7.74.0_amd64.deb" = path_join "/tmp/out" name.
Proof.
  intros env.
  destruct (payload_written_under_deb_name
              (Fixture.downloader Fixture.repository None)) as [Hinv _].
  destruct (Hinv "curl" "/tmp/out" Fixture.w0 "/tmp/out/curl_7.74.0_amd64.deb"
              (snd (download (Fixture.downloader Fixture.repository None)
                      (Some "curl") "/tmp/out" Fixture.w0)))
    as (package & full_name & name & data & algorithm
        & Hp & Hf & Hm & Hs & Hr & Hpath & _);
    [discriminate | vm_compute; reflexivity |].
  exists package, full_name, name, data, algorithm. tauto.
Defined.

(** C8 as stated fails: the [Filename] of the section goes on after [deb];
    [download] succeeds and writes the payload under a name that is not
    the last component of [Filename]. *)
Lemma payload_name_is_not_basename :
  let _ := Fixture.collaborators Fixture.odd_filename in
  Fixture.source_tarball !! "Filename"
    = Some "pool/main/c/curl/curl_7.74.0.debian.tar.xz" ∧
  basename "pool/main/c/curl/curl_7.74.0.debian.tar.xz"
    = "curl_7.74.0.debian.tar.xz" ∧
  download (Fixture.downloader Fixture.repository None) (Some "curl")
    "/tmp/out" Fixture.w0
    = (Return "/tmp/out/curl_7.74.0.deb",
       World [Fixture.dists +:+ "/InRelease"; Fixture.gz_url;
              "http://example.test/debian/pool/main/c/curl/curl_7.74.0.debian.tar.xz"]
         {[ "/tmp/out/curl_7.74.0.deb" := Fixture.b "DEB" ]}
         [(WARNING,
           "Warning: Package curl will get downloaded without verification!")]) ∧
  "/tmp/out/curl_7.74.0.deb"
    ≠ path_join "/tmp/out"
        (basename "pool/main/c/curl/curl_7.74.0.debian.tar.xz").
Proof.
  intros env. split; [vm_compute; reflexivity |].
  split; [vm_compute; reflexivity |].
  split; [vm_compute; reflexivity |]. vm_compute. discriminate.
Qed.

(** ** Further properties of the downloader *)

(** *** The URI of the repository *)

Lemma rstrip_split (c : ascii) (s : string) :
  ∃ tail, s = rstrip c s +:+ tail ∧ all_chars (λ d, Ascii.eqb d c) tail = true.
Proof.
  induction s as [|d s (tail & E & Htail)].
  - exists EmptyString. split; reflexivity.
  - cbn [rstrip]. destruct (rstrip c s) as [|e r] eqn:Hr.
    + destruct (Ascii.eqb d c) eqn:Hd.
      * exists (String d tail). split; [rewrite E at 1; reflexivity |].
        cbn [all_chars]. rewrite Hd, Htail. reflexivity.
      * exists tail. split; [rewrite E at 1; reflexivity | exact Htail].
    + exists tail. split; [| exact Htail]. rewrite E at 1. reflexivity.
Qed.

Lemma rstrip_no_trailing (c : ascii) (s : string) :
  ends_with (String c EmptyString) (rstrip c s) = false.
Proof.
  induction s as [|d s IH]; [reflexivity |].
  cbn [rstrip]. destruct (rstrip c s) as [|e r] eqn:Hr.
  - destruct (Ascii.eqb d c) eqn:Hd; [reflexivity |].
    rewrite ends_with_cons.
    change (ends_with (String c EmptyString) EmptyString) with false.
    rewrite orb_false_r. apply String.eqb_neq. intros E. injection E as E.
    rewrite E, Ascii.eqb_refl in Hd. discriminate.
  - rewrite ends_with_cons, IH, orb_false_r.
    apply String.eqb_neq. discriminate.
Qed.

(** X1: the downloader that [__init__] builds keeps the distribution and
    the components of the repository line and its URI without the slashes
    at its end: the URI of the line is the URI of the downloader followed
    by slashes only, and the URI of the downloader does not end in a
    slash. *)
Theorem init_strips_trailing_slashes `{Collaborators} repository repository_key
    architectures w self w' :
  __init__ repository repository_key architectures w = (Return self, w') →
  ends_with "/" (uri (_source self)) = false ∧
  (∃ slashes,
     uri (SourceEntry (default "" repository))
       = uri (_source self) +:+ slashes ∧
     all_chars (λ c, Ascii.eqb c "/") slashes = true) ∧
  dist (_source self) = dist (SourceEntry (default "" repository)) ∧
  comps (_source self) = comps (SourceEntry (default "" repository)).
Proof.
  intros Hinit.
  apply init_returns in Hinit as (_ & _ & _ & _ & _ & Hsource & _).
  rewrite Hsource. cbn [uri dist comps].
  split; [apply rstrip_no_trailing |].
  split; [apply rstrip_split |]. split; reflexivity.
Qed.

Lemma init_strips_trailing_slashes_witness :
  let _ := Fixture.collaborators Fixture.plain in
  uri (SourceEntry "deb http://example.test/debian// bullseye main")
    = "http://example.test/debian//" ∧
  ∃ self,
    __init__ (Some "deb http://example.test/debian// bullseye main") None
      (Some ["amd64"]) Fixture.w0 = (Return self, Fixture.w0) ∧
    uri (_source self) = "http://example.test/debian" ∧
    ends_with "/" (uri (_source self)) = false.
Proof.
  intros env. split; [reflexivity |].
  eexists. split; [reflexivity |]. split; [reflexivity |].
  eapply (init_strips_trailing_slashes
            (Some "deb http://example.test/debian// bullseye main") None
            (Some ["amd64"]) Fixture.w0).
  reflexivity.
Defined.

(** *** What [download] leaves on disk *)

Lemma download_package_files_other `{Collaborators} self package dest w path :
  (_download_package self package dest w).1 ≠ Return path →
  files (_download_package self package dest w).2 !! path = files w !! path.
Proof.
  rewrite download_package_run.
  destruct (package !! "Filename") as [full_name|]; [| reflexivity].
  destruct (match_deb_name full_name) as [n|]; [| reflexivity].
  cbv zeta.
  destruct (served (payload_url self full_name)) as [data|];
    [| destruct (connection_error _); reflexivity].
  destruct (recorded_checksum _ package) as [[algorithm checksum]|];
    [| reflexivity].
  destruct (String.eqb _ checksum); [| reflexivity].
  destruct (open_error _); [reflexivity |].
  cbn [fst snd add_file add_request files]. intros Hne.
  apply lookup_insert_ne. congruence.
Qed.

Lemma locate_files_other `{Collaborators} self package_name release_file dest
    w path :
  (download_locate_and_fetch self package_name release_file dest w).1
    ≠ Return path →
  files (download_locate_and_fetch self package_name release_file dest w).2
    !! path = files w !! path.
Proof.
  unfold download_locate_and_fetch. rewrite bind_run.
  pose proof (parse_release_file_world self release_file w) as Hparse.
  destruct (_parse_release_file self release_file w) as [[pfs|msg|e] wc];
    simpl in Hparse; subst wc; try reflexivity.
  rewrite bind_run.
  pose proof (find_package_loop_files self package_name pfs [] w) as Hfind.
  fold (_find_package_in_package_files self package_name pfs) in Hfind.
  destruct (_find_package_in_package_files self package_name pfs w)
    as [[found|msg|e] wd]; simpl in Hfind;
    try (cbn [snd]; rewrite Hfind; reflexivity).
  destruct (negb (truthy found)).
  - intros _. cbn [snd print_error_and_exit]. rewrite Hfind. reflexivity.
  - intros Hne. rewrite download_package_files_other by exact Hne.
    rewrite Hfind. reflexivity.
Qed.

(** X2: whatever the outcome of [download], the files after the call are
    those from before it without the temporary directory, except for the
    file at the path that the call returns: a call that does not return
    writes nothing that stays, and a call that returns leaves nothing but
    the payload. *)
Theorem download_only_leaves_the_returned_file `{Collaborators} self
    package_name dest w0 r w' path :
  package_name ≠ "" →
  download self (Some package_name) dest w0 = (r, w') →
  r ≠ Return path →
  files w' !! path
    = if under (mkdtemp (files w0)) path then None else files w0 !! path.
Proof.
  intros Hn E Hne. rewrite download_run in E by assumption. cbv zeta in E.
  destruct ((download_release self (mkdtemp (files w0)) ≫= _) w0)
    as [r4 w4] eqn:Ebody.
  injection E as -> <-. rewrite remove_tree_lookup.
  destruct (under (mkdtemp (files w0)) path) eqn:Hout; [reflexivity |].
  rewrite bind_run in Ebody.
  pose proof (download_release_files self (mkdtemp (files w0)) w0 path Hout)
    as Hrel.
  destruct (download_release self (mkdtemp (files w0)) w0)
    as [[[rf sf]|msg|e] wa]; simpl in Hrel;
    try (injection Ebody as _ <-; exact Hrel).
  rewrite bind_run in Ebody.
  destruct (download_authenticate self package_name (mkdtemp (files w0)) rf sf wa)
    as [ra wb] eqn:Hauth.
  destruct (download_authenticate_world _ _ _ _ _ _ _ _ Hauth) as [Hfiles _].
  destruct ra as [[]|msg|e];
    try (injection Ebody as _ <-; rewrite Hfiles; exact Hrel).
  pose proof (locate_files_other self package_name rf dest wb path) as Hloc.
  rewrite Ebody in Hloc. simpl in Hloc.
  rewrite (Hloc Hne), Hfiles. exact Hrel.
Qed.

Lemma download_only_leaves_the_returned_file_witness :
  let _ := Fixture.collaborators Fixture.plain in
  files (download (Fixture.downloader Fixture.repository None) (Some "curl")
           "/tmp/out" (add_file "/etc/hostname" (Fixture.b "edi") Fixture.w0)).2
    !! "/etc/hostname" = Some (Fixture.b "edi") ∧
  files (download (Fixture.downloader Fixture.repository None) (Some "curl")
           "/tmp/out" (add_file "/etc/hostname" (Fixture.b "edi") Fixture.w0)).2
    !! "/tmp/tmpedi/InRelease" = None.
Proof.
  intros env.
  pose (w := add_file "/etc/hostname" (Fixture.b "edi") Fixture.w0).
  pose (run := download (Fixture.downloader Fixture.repository None)
                 (Some "curl") "/tmp/out" w).
  split.
  - etransitivity;
      [apply (download_only_leaves_the_returned_file
                (Fixture.downloader Fixture.repository None) "curl" "/tmp/out"
                w run.1 run.2 "/etc/hostname");
       [discriminate | apply surjective_pairing | vm_compute; discriminate]
      | vm_compute; reflexivity].
  - etransitivity;
      [apply (download_only_leaves_the_returned_file
                (Fixture.downloader Fixture.repository None) "curl" "/tmp/out"
                w run.1 run.2 "/tmp/tmpedi/InRelease");
       [discriminate | apply surjective_pairing | vm_compute; discriminate]
      | vm_compute; reflexivity].
Defined.

(** *** Where [download] sends its requests *)

Lemma requests_within_refl self w w' :
  requests w' = requests w → requests_within self w w'.
Proof. intros E. exists []. rewrite app_nil_r. split; [exact E | constructor]. Qed.

Lemma requests_within_trans self w1 w2 w3 :
  requests_within self w1 w2 → requests_within self w2 w3 →
  requests_within self w1 w3.
Proof.
  intros (l1 & E1 & H1) (l2 & E2 & H2). exists (l1 ++ l2).
  split; [rewrite E2, E1, app_assoc; reflexivity |].
  apply Forall_app. split; assumption.
Qed.

Lemma within_repository_slash self (rest : string) :
  within_repository self (uri (_source self) +:+ String "/" rest).
Proof.
  unfold within_repository. rewrite prefix_append. cbn [String.prefix].
  destruct (ascii_dec "/" "/"); [apply prefix_empty | congruence].
Qed.

Lemma within_repository_base self (rest : string) :
  within_repository self (base_url self +:+ rest).
Proof.
  unfold base_url. rewrite append_assoc. apply within_repository_slash.
Qed.

Lemma requests_within_step self w url :
  within_repository self url → requests_within self w (add_request url w).
Proof.
  intros Hu. exists [url]. split; [reflexivity |].
  constructor; [exact Hu | constructor].
Qed.

Lemma download_release_within `{Collaborators} self tempdir w :
  requests_within self w (download_release self tempdir w).2.
Proof.
  destruct (download_release_requests self tempdir w) as (l & E & Hl).
  exists l. split; [exact E |]. apply Forall_forall. intros url Hin.
  apply Hl in Hin. rewrite !elem_of_cons, elem_of_nil in Hin.
  destruct Hin as [-> | [-> | [-> | []]]]; apply within_repository_base.
Qed.

Lemma find_package_body_within `{Collaborators} self package_name package_file
    downloaded w :
  requests_within self w
    (_find_package_body self package_name package_file downloaded w).2.
Proof.
  assert (Hstep : requests_within self w
                    (add_request (index_url self
                       (default "" (package_file !! "name"))) w)).
  { apply requests_within_step. apply within_repository_slash. }
  rewrite find_package_body_run.
  destruct (package_file !! "name") as [name|];
    [| apply requests_within_refl; reflexivity].
  simpl default in Hstep.
  destruct (candidate_prefix name) as [prefix|];
    [| apply requests_within_refl; reflexivity].
  destruct (bool_decide (prefix ∈ downloaded));
    [apply requests_within_refl; reflexivity |].
  cbv zeta.
  destruct (served (index_url self name)) as [[|x data]|];
    try (destruct (connection_error _); exact Hstep).
  destruct (recorded_checksum _ package_file) as [[algorithm checksum]|];
    [| exact Hstep].
  destruct (String.eqb _ checksum); [| exact Hstep].
  destruct (decompress (x :: data)) as [d|msg|e]; try exact Hstep.
  destruct (scan_paragraphs package_name (Packages_iter_paragraphs d) _).1
    as [[s|]|msg|e]; exact Hstep.
Qed.

Lemma find_package_loop_within `{Collaborators} self package_name package_files
    downloaded w :
  requests_within self w
    (_find_package_loop self package_name package_files downloaded w).2.
Proof.
  revert downloaded w.
  induction package_files as [|package_file rest IH]; simpl;
    intros downloaded w; [apply requests_within_refl; reflexivity |].
  rewrite bind_run.
  pose proof (find_package_body_within self package_name package_file
                downloaded w) as Hbody.
  destruct (_find_package_body self package_name package_file downloaded w)
    as [[[d1|s]|msg|e] w1]; simpl in Hbody; try exact Hbody.
  eapply requests_within_trans; [exact Hbody | apply IH].
Qed.

Lemma download_package_within `{Collaborators} self package dest w :
  requests_within self w (_download_package self package dest w).2.
Proof.
  rewrite download_package_run.
  destruct (package !! "Filename") as [full_name|];
    [| apply requests_within_refl; reflexivity].
  destruct (match_deb_name full_name) as [n|];
    [| apply requests_within_refl; reflexivity].
  assert (Hstep : requests_within self w
                    (add_request (payload_url self full_name) w)).
  { apply requests_within_step. apply within_repository_slash. }
  cbv zeta.
  destruct (served (payload_url self full_name)) as [data|];
    [| destruct (connection_error _); exact Hstep].
  destruct (recorded_checksum _ package) as [[algorithm checksum]|];
    [| exact Hstep].
  destruct (String.eqb _ checksum); [| exact Hstep].
  destruct (open_error _); [exact Hstep |].
  destruct Hstep as (l & E & Hl). exists l. split; [exact E | exact Hl].
Qed.

Lemma locate_within `{Collaborators} self package_name release_file dest w :
  requests_within self w
    (download_locate_and_fetch self package_name release_file dest w).2.
Proof.
  unfold download_locate_and_fetch. rewrite bind_run.
  pose proof (parse_release_file_world self release_file w) as Hparse.
  destruct (_parse_release_file self release_file w) as [[pfs|msg|e] wc];
    simpl in Hparse; subst wc; try (apply requests_within_refl; reflexivity).
  rewrite bind_run.
  pose proof (find_package_loop_within self package_name pfs [] w) as Hfind.
  fold (_find_package_in_package_files self package_name pfs) in Hfind.
  destruct (_find_package_in_package_files self package_name pfs w)
    as [[found|msg|e] wd]; simpl in Hfind; try exact Hfind.
  destruct (negb (truthy found)); [exact Hfind |].
  eapply requests_within_trans; [exact Hfind | apply download_package_within].
Qed.

(** X3: whatever the outcome, [download] only adds to the list of the
    URLs that the module passes to [requests.get], and every URL it adds
    is, as a string, the URI of the repository followed by a slash and
    further text. The statement is about the text of the URL: a
    [Filename] with [..] in it gives such a URL too. What
    [fetch_repository_key] asks for when it fetches the key is no request
    of the module and is not on the list. *)
Theorem download_requests_stay_within_repository `{Collaborators} self
    package_name dest w0 :
  ∃ added,
    requests (download self package_name dest w0).2 = requests w0 ++ added ∧
    Forall (λ url, String.prefix (uri (_source self) +:+ "/") url = true) added.
Proof.
  change (requests_within self w0 (download self package_name dest w0).2).
  unfold download. destruct (negb (truthy package_name));
    [apply requests_within_refl; reflexivity |].
  unfold TemporaryDirectory.
  destruct ((download_release self (mkdtemp (files w0)) ≫= _) w0)
    as [r4 w4] eqn:Ebody.
  apply (requests_within_trans _ _ w4);
    [| apply requests_within_refl; reflexivity].
  rewrite bind_run in Ebody.
  pose proof (download_release_within self (mkdtemp (files w0)) w0) as Hrel.
  destruct (download_release self (mkdtemp (files w0)) w0)
    as [[[rf sf]|msg|e] wa]; simpl in Hrel;
    try (injection Ebody as _ <-; exact Hrel).
  rewrite bind_run in Ebody.
  destruct (download_authenticate self (default "" package_name)
              (mkdtemp (files w0)) rf sf wa) as [ra wb] eqn:Hauth.
  destruct (download_authenticate_world _ _ _ _ _ _ _ _ Hauth) as [_ Hreq].
  assert (Hab : requests_within self w0 wb).
  { eapply requests_within_trans; [exact Hrel |].
    apply requests_within_refl. exact Hreq. }
  destruct ra as [[]|msg|e]; try (injection Ebody as _ <-; exact Hab).
  pose proof (locate_within self (default "" package_name) rf dest wb) as Hloc.
  rewrite Ebody in Hloc. simpl in Hloc.
  eapply requests_within_trans; [exact Hab | exact Hloc].
Qed.

(** *** What [download] logs *)

Lemma download_release_logged `{Collaborators} self tempdir w :
  logged (download_release self tempdir w).2 = logged w.
Proof.
  rewrite download_release_run. cbv zeta.
  reply_cases; reflexivity.
Qed.

Lemma find_package_body_logged `{Collaborators} self package_name package_file
    downloaded w :
  logged (_find_package_body self package_name package_file downloaded w).2
    = logged w.
Proof.
  rewrite find_package_body_run.
  destruct (package_file !! "name") as [name|]; [| reflexivity].
  destruct (candidate_prefix name) as [prefix|]; [| reflexivity].
  destruct (bool_decide (prefix ∈ downloaded)); [reflexivity |].
  cbv zeta.
  destruct (served (index_url self name)) as [[|x data]|];
    try (destruct (connection_error _); reflexivity).
  destruct (recorded_checksum _ package_file) as [[algorithm checksum]|];
    [| reflexivity].
  destruct (String.eqb _ checksum); [| reflexivity].
  destruct (decompress (x :: data)) as [d|msg|e]; try reflexivity.
  destruct (scan_paragraphs package_name (Packages_iter_paragraphs d) _).1
    as [[s|]|msg|e]; reflexivity.
Qed.

Lemma find_package_loop_logged `{Collaborators} self package_name package_files
    downloaded w :
  logged (_find_package_loop self package_name package_files downloaded w).2
    = logged w.
Proof.
  revert downloaded w.
  induction package_files as [|package_file rest IH]; simpl;
    intros downloaded w; [reflexivity |].
  rewrite bind_run.
  pose proof (find_package_body_logged self package_name package_file
                downloaded w) as Hbody.
  destruct (_find_package_body self package_name package_file downloaded w)
    as [[[d1|s]|msg|e] w1]; simpl in Hbody; try exact Hbody.
  rewrite IH. exact Hbody.
Qed.

Lemma download_package_logged `{Collaborators} self package dest w :
  logged (_download_package self package dest w).2 = logged w.
Proof.
  rewrite download_package_run.
  destruct (package !! "Filename") as [full_name|]; [| reflexivity].
  destruct (match_deb_name full_name) as [n|]; [| reflexivity].
  cbv zeta.
  destruct (served (payload_url self full_name)) as [data|];
    [| destruct (connection_error _); reflexivity].
  destruct (recorded_checksum _ package) as [[algorithm checksum]|];
    [| reflexivity].
  destruct (String.eqb _ checksum); [| reflexivity].
  destruct (open_error _); reflexivity.
Qed.

Lemma locate_logged `{Collaborators} self package_name release_file dest w :
  logged (download_locate_and_fetch self package_name release_file dest w).2
    = logged w.
Proof.
  unfold download_locate_and_fetch. rewrite bind_run.
  pose proof (parse_release_file_world self release_file w) as Hparse.
  destruct (_parse_release_file self release_file w) as [[pfs|msg|e] wc];
    simpl in Hparse; subst wc; try reflexivity.
  rewrite bind_run.
  pose proof (find_package_loop_logged self package_name pfs [] w) as Hfind.
  fold (_find_package_in_package_files self package_name pfs) in Hfind.
  destruct (_find_package_in_package_files self package_name pfs w)
    as [[found|msg|e] wd]; simpl in Hfind; try exact Hfind.
  destruct (negb (truthy found)); [exact Hfind |].
  rewrite download_package_logged. exact Hfind.
Qed.

(** With a key, the second stage logs at level INFO only. *)
Lemma download_authenticate_logged_with_key `{Collaborators} self package_name
    tempdir release_file signature_file w :
  truthy (_repository_key self) = true →
  ∃ added,
    logged (download_authenticate self package_name tempdir release_file
              signature_file w).2 = logged w ++ added ∧
    Forall (λ record, record.1 = INFO) added.
Proof.
  intros Hkey. unfold download_authenticate. rewrite Hkey.
  rewrite bind_run. unfold lift at 1.
  destruct (fetch_repository_key _) as [kd|msg|e];
    try (exists []; rewrite app_nil_r; split; [reflexivity | constructor]).
  rewrite bind_run. unfold lift at 1.
  destruct (build_keyring _ _ _) as [kr|msg|e];
    try (exists []; rewrite app_nil_r; split; [reflexivity | constructor]).
  rewrite bind_run. unfold _verify_signature.
  rewrite bind_run. unfold run at 1. rewrite bind_run. unfold logging at 1.
  destruct (search_line_start "[GNUPG:] GOODSIG" _
            && search_line_start "[GNUPG:] VALIDSIG" _);
    eexists [_; _]; simpl; rewrite <- app_assoc;
    (split; [reflexivity | repeat constructor]).
Qed.

(** X4: without a repository key, a call of [download] whose first stage
    returns logs exactly one record, the warning that the package is
    downloaded without verification, whatever happens afterwards; with a
    key it logs no warning at all, only records at level INFO. *)
Theorem download_warns_once_without_key `{Collaborators} self package_name
    dest w0 :
  package_name ≠ "" →
  (truthy (_repository_key self) = false →
   ∀ release_file signature_file wa,
     download_release self (mkdtemp (files w0)) w0
       = (Return (release_file, signature_file), wa) →
     logged (download self (Some package_name) dest w0).2
       = logged w0 ++
         [(WARNING, "Warning: Package " +:+ package_name
                      +:+ " will get downloaded without verification!")]) ∧
  (truthy (_repository_key self) = true →
   ∃ added,
     logged (download self (Some package_name) dest w0).2
       = logged w0 ++ added ∧
     Forall (λ record, record.1 = INFO) added).
Proof.
  intros Hn. rewrite download_run by assumption. cbv zeta.
  pose proof (download_release_logged self (mkdtemp (files w0)) w0) as Hrel.
  split.
  - intros Hkey rf sf wa Erel. rewrite Erel in Hrel. simpl in Hrel.
    rewrite bind_run, Erel. cbv beta iota. rewrite bind_run.
    unfold download_authenticate at 1. rewrite Hkey. unfold logging at 1.
    pose proof (locate_logged self package_name rf dest
                  (add_log WARNING
                     ("Warning: Package " +:+ package_name
                        +:+ " will get downloaded without verification!") wa))
      as Hloc.
    destruct (download_locate_and_fetch self package_name rf dest _)
      as [r w3]. simpl in Hloc. cbn [snd remove_tree logged].
    rewrite Hloc. cbn [add_log logged]. rewrite Hrel. reflexivity.
  - intros Hkey. rewrite bind_run.
    destruct (download_release self (mkdtemp (files w0)) w0)
      as [[[rf sf]|msg|e] wa]; simpl in Hrel;
      try (exists []; rewrite app_nil_r; split; [exact Hrel | constructor]).
    rewrite bind_run.
    destruct (download_authenticate_logged_with_key self package_name
                (mkdtemp (files w0)) rf sf wa Hkey) as (added & Eadd & Hadd).
    destruct (download_authenticate self package_name (mkdtemp (files w0))
                rf sf wa) as [[[]|msg|e] wb]; simpl in Eadd;
      try (exists added; cbn [snd remove_tree logged]; rewrite Eadd, Hrel;
           split; [reflexivity | exact Hadd]).
    pose proof (locate_logged self package_name rf dest wb) as Hloc.
    destruct (download_locate_and_fetch self package_name rf dest wb)
      as [r w3]. simpl in Hloc. exists added.
    cbn [snd remove_tree logged]. rewrite Hloc, Eadd, Hrel.
    split; [reflexivity | exact Hadd].
Qed.

Lemma download_warns_once_without_key_witness :
  let _ := Fixture.collaborators Fixture.corrupt_index in
  (download (Fixture.downloader Fixture.repository None) (Some "curl")
     "/tmp/out" Fixture.w0).1 = ChecksumMismatch ∧
  logged (download (Fixture.downloader Fixture.repository None) (Some "curl")
            "/tmp/out" Fixture.w0).2
    = [(WARNING,
        "Warning: Package curl will get downloaded without verification!")].
Proof.
  intros env. split; [vm_compute; reflexivity |].
  destruct (download_warns_once_without_key
              (Fixture.downloader Fixture.repository None) "curl" "/tmp/out"
              Fixture.w0) as [Hwarn _]; [discriminate |].
  apply (Hwarn eq_refl "/tmp/tmpedi/InRelease" None
           (add_file "/tmp/tmpedi/InRelease" (Fixture.b "INRELEASE")
              (add_request (Fixture.dists +:+ "/InRelease") Fixture.w0))).
  vm_compute. reflexivity.
Defined.

(** *** The checksum fields *)

(** X5: [_verify_checksum] judges the data by the field SHA512 when it
    holds a non-empty value and else by the field SHA256, under the hash
    of that field; an empty value counts as no value, and with no such
    field the call ends in the [NameError]. The items are Deb822
    mappings, so a field is read under its name in whatever case the
    document writes it, and the second look of the code, under the
    lower-cased name, reads the same field as the first. *)
Theorem verify_checksum_follows_field_order `{Collaborators} repository
    repository_key architectures w0 self w1 data (it : item) w :
  __init__ repository repository_key architectures w0 = (Return self, w1) →
  _verify_checksum self (Some data) it w =
  match first_recorded checksum_fields it with
  | None => (Raise (NameError "package_item"), w)
  | Some (hash, checksum) =>
      if String.eqb (hexdigest hash data) checksum
      then (Return (), w) else (ChecksumMismatch, w)
  end ∧
  (∀ key key', is_ascii key = true → is_ascii key' = true →
     ascii_lower key = ascii_lower key' → it !! key = it !! key') ∧
  (∀ algorithm, algorithm ∈ _checksum_algorithms self →
     it !! lower algorithm = it !! algorithm).
Proof.
  intros Hinit.
  apply init_returns in Hinit as (_ & _ & _ & _ & _ & _ & _ & Halg).
  split; [| split].
  - rewrite verify_checksum_run, Halg, recorded_checksum_init.
    cbn [first_recorded checksum_fields].
    destruct (it !! "SHA512") as [[|c1 s1]|];
      [| rewrite lower_SHA512; reflexivity |];
      (destruct (it !! "SHA256") as [[|c3 s3]|];
       rewrite ?lower_SHA256; reflexivity).
  - intros key key'. apply lookup_ignores_case.
  - intros algorithm. rewrite Halg, !elem_of_cons, elem_of_nil.
    intros [-> | [-> | []]].
    + rewrite lower_SHA512. apply lookup_ignores_case; reflexivity.
    + rewrite lower_SHA256. apply lookup_ignores_case; reflexivity.
Qed.

Lemma verify_checksum_follows_field_order_witness :
  let _ := Fixture.collaborators Fixture.plain in
  first_recorded checksum_fields
    (paragraph [("SHA512", ""); ("Sha256", "sha256:DEB"); ("MD5sum", "0f")])
    = Some ("sha256", "sha256:DEB") ∧
  _verify_checksum (Fixture.downloader Fixture.repository None)
    (Some (Fixture.b "DEB"))
    (paragraph [("SHA512", ""); ("Sha256", "sha256:DEB"); ("MD5sum", "0f")])
    Fixture.w0
    = (Return (), Fixture.w0).
Proof.
  intros env. split; [vm_compute; reflexivity |].
  destruct (verify_checksum_follows_field_order
              (Some Fixture.repository) None (Some ["amd64"]) Fixture.w0
              (Fixture.downloader Fixture.repository None) Fixture.w0
              (Fixture.b "DEB")
              (paragraph [("SHA512", ""); ("Sha256", "sha256:DEB");
                          ("MD5sum", "0f")])
              Fixture.w0) as [E _]; [reflexivity |].
  rewrite E. vm_compute. reflexivity.
Defined.

(** *** The status lines of gpg *)

Lemma prefix_iff (p s : string) :
  String.prefix p s = true ↔ ∃ after, s = p +:+ after.
Proof.
  revert s. induction p as [|c p IH]; intros s.
  - rewrite prefix_empty. split; [intros _; exists s; reflexivity | auto].
  - destruct s as [|d s].
    + split; [discriminate | intros [after E]; discriminate].
    + cbn [String.prefix]. destruct (ascii_dec c d) as [<- | Hne].
      * rewrite IH. split.
        -- intros [after ->]. exists after. reflexivity.
        -- intros [after E]. injection E as ->. exists after. reflexivity.
      * split; [discriminate |]. intros [after E]. injection E as E _.
        congruence.
Qed.

Lemma search_bol_iff (pat : string) (bol : bool) (s : string) :
  search_bol pat bol s = true ↔
  (bol = true ∧ String.prefix pat s = true) ∨
  (∃ b a, s = b +:+ String newline (pat +:+ a)).
Proof.
  revert bol. induction s as [|c s IH]; intros bol.
  - cbn [search_bol]. rewrite orb_false_r, andb_true_iff. split.
    + intros Hp. left. exact Hp.
    + intros [Hp | (b & a & E)]; [exact Hp |].
      destruct b; discriminate.
  - cbn [search_bol]. rewrite orb_true_iff, andb_true_iff, IH. split.
    + intros [Hp | [[Hc Hp] | (b & a & ->)]].
      * left. exact Hp.
      * right. apply Ascii.eqb_eq in Hc. subst c.
        apply prefix_iff in Hp as [a ->]. exists EmptyString, a. reflexivity.
      * right. exists (String c b), a. reflexivity.
    + intros [Hp | (b & a & E)]; [left; exact Hp |]. right.
      destruct b as [|d b].
      * injection E as -> ->. left. split; [apply Ascii.eqb_refl |].
        apply prefix_iff. eauto.
      * injection E as -> ->. right. eauto.
Qed.

Lemma search_line_start_iff (pat s : string) :
  search_line_start pat s = true ↔ starts_a_line pat s.
Proof.
  unfold search_line_start, starts_a_line. rewrite search_bol_iff. split.
  - intros [[_ Hp] | (b & a & ->)].
    + apply prefix_iff in Hp as [a ->]. exists EmptyString, a. auto.
    + exists (b +:+ String newline EmptyString), a.
      split; [rewrite append_assoc; reflexivity | eauto].
  - intros (before & after & -> & [-> | [b ->]]).
    + left. split; [reflexivity |]. apply prefix_iff. eauto.
    + right. exists b, after. rewrite append_assoc. reflexivity.
Qed.

(** X6: [_verify_signature] always returns, and it returns [True] exactly
    when the status output of gpg has a line that starts with
    [[GNUPG:] GOODSIG] and a line that starts with [[GNUPG:] VALIDSIG];
    the same words further inside a line do not count. It reads the
    files and changes none, sends no request and logs at level INFO. *)
Theorem verify_signature_reads_line_starts `{Collaborators} homedir keyring
    signed_file detached_signature w :
  let stdout :=
    run_gpg (gpg_cmd homedir keyring signed_file detached_signature) (files w) in
  ∃ verdict w',
    _verify_signature homedir keyring signed_file detached_signature w
      = (Return verdict, w') ∧
    (verdict = true ↔
       starts_a_line "[GNUPG:] GOODSIG" stdout ∧
       starts_a_line "[GNUPG:] VALIDSIG" stdout) ∧
    files w' = files w ∧ requests w' = requests w ∧
    ∃ message, logged w' = logged w ++ [(INFO, stdout); (INFO, message)].
Proof.
  intros stdout. unfold _verify_signature.
  rewrite bind_run. unfold run at 1. fold stdout.
  rewrite bind_run. unfold logging at 1.
  pose proof (search_line_start_iff "[GNUPG:] GOODSIG" stdout) as Hgood.
  pose proof (search_line_start_iff "[GNUPG:] VALIDSIG" stdout) as Hvalid.
  destruct (search_line_start "[GNUPG:] GOODSIG" stdout);
    destruct (search_line_start "[GNUPG:] VALIDSIG" stdout);
    eexists _, _; (split; [reflexivity |]);
    (split;
     [split; [intros E; try discriminate E; tauto
             | intros [Hg Hv]; apply Hgood in Hg; apply Hvalid in Hv;
               try discriminate; reflexivity] |]);
    (split; [reflexivity |]); (split; [reflexivity |]);
    eexists; simpl; rewrite <- app_assoc; reflexivity.
Qed.

(** *** The candidates and the pattern of the loop *)

Lemma parse_release_file_returns_inv `{Collaborators} self release_file w
    package_files w' :
  _parse_release_file self release_file w = (Return package_files, w') →
  ∃ rows, package_files = List.filter (name_in (packages_filter self)) rows.
Proof.
  unfold _parse_release_file, read_file. rewrite bind_run.
  destruct (files w !! release_file) as [content|]; [| discriminate].
  destruct (Release_iter_paragraphs content) as [|main rest]; [discriminate |].
  cbv zeta.
  destruct (negb (truthy (if negb (truthy (main !! "SHA512"))
                          then main !! "SHA256" else main !! "SHA512")));
    [discriminate |].
  intros E. injection E as <- _. eauto.
Qed.

(** X7: every candidate that [_parse_release_file] hands to the lookup
    has a name of the form [<component>/binary-<arch>/Packages.<compression>]
    for a component, an architecture and a compression of the downloader,
    and the pattern of the loop takes such a name apart, with the prefix
    [<component>_binary-<arch>_] (slashes of the component replaced too).
    So on these candidates the loop meets neither a missing name nor a
    name it cannot parse. *)
Theorem parsed_candidates_match_the_pattern `{Collaborators} repository
    repository_key architectures w0 self w1 release_file w package_files w' :
  __init__ repository repository_key architectures w0 = (Return self, w1) →
  Forall (λ component, has_char newline component = false)
    (comps (_source self)) →
  Forall (λ architecture, has_char newline architecture = false)
    (_architectures self) →
  _parse_release_file self release_file w = (Return package_files, w') →
  Forall (λ package_file : item,
            ∃ component architecture compression,
              component ∈ comps (_source self) ∧
              architecture ∈ _architectures self ∧
              compression ∈ ["gz"; "bz2"; "xz"] ∧
              package_file !! "name"
                = Some (component +:+ "/binary-" +:+ architecture
                          +:+ "/Packages." +:+ compression) ∧
              candidate_prefix (component +:+ "/binary-" +:+ architecture
                                  +:+ "/Packages." +:+ compression)
                = Some (replace_char "/" "_"
                          (component +:+ "/binary-" +:+ architecture +:+ "/")))
    package_files.
Proof.
  intros Hinit Hcomps Harchs Hparse.
  apply init_returns in Hinit as (_ & _ & _ & _ & _ & _ & Hz & _).
  destruct (parse_release_file_returns_inv _ _ _ _ _ Hparse) as [rows ->].
  apply Forall_forall. intros pf Hin.
  apply list_elem_of_In, filter_In in Hin as [_ Hname].
  unfold name_in in Hname.
  destruct (pf !! "name") as [name|]; [| discriminate].
  apply bool_decide_eq_true, packages_filter_spec in Hname
    as (c & a & z & Hc & Ha & Hzin & ->).
  rewrite Hz in Hzin. exists c, a, z.
  split; [exact Hc |]. split; [exact Ha |]. split; [exact Hzin |].
  split; [reflexivity |].
  apply candidate_prefix_of_path; [| | exact Hzin].
  - rewrite Forall_forall in Hcomps. auto.
  - rewrite Forall_forall in Harchs. auto.
Qed.

Lemma parsed_candidates_match_the_pattern_witness :
  let _ := Fixture.collaborators Fixture.xz_first in
  ∃ package_files w',
    _parse_release_file (Fixture.downloader Fixture.repository None)
      "/tmp/tmpedi/InRelease"
      (add_file "/tmp/tmpedi/InRelease" (Fixture.b "INRELEASE") Fixture.w0)
      = (Return package_files, w') ∧
    length package_files = 2%nat ∧
    Forall (λ package_file : item,
              ∃ name prefix, package_file !! "name" = Some name ∧
                             candidate_prefix name = Some prefix)
      package_files.
Proof.
  intros env. eexists _, _. split; [vm_compute; reflexivity |].
  split; [reflexivity |].
  pose proof (parsed_candidates_match_the_pattern
                (Some Fixture.repository) None (Some ["amd64"]) Fixture.w0
                (Fixture.downloader Fixture.repository None) Fixture.w0
                "/tmp/tmpedi/InRelease"
                (add_file "/tmp/tmpedi/InRelease" (Fixture.b "INRELEASE")
                   Fixture.w0)
                [Fixture.row "sha256" Fixture.xz_name "INDEXXZ";
                 Fixture.row "sha256" Fixture.gz_name "INDEX"]
                (add_file "/tmp/tmpedi/InRelease" (Fixture.b "INRELEASE")
                   Fixture.w0)) as Hall.
  eapply Forall_impl; [apply Hall |].
  - reflexivity.
  - repeat constructor.
  - repeat constructor.
  - vm_compute. reflexivity.
  - intros pf (c & a & z & _ & _ & _ & Hn & Hp). eauto.
Defined.

(** *** The payload never leaves the destination directory *)

(** What [(.*deb)] takes is a start of the text, on one line, ending in
    [deb]. *)
Lemma match_dot_star_deb_inv (s g : string) :
  match_dot_star_deb s = Some g →
  (∃ rest, s = g +:+ rest) ∧
  has_char newline g = false ∧ ends_with "deb" g = true.
Proof.
  revert g. induction s as [|c s IH]; intros g; [discriminate |].
  cbn [match_dot_star_deb].
  assert (Hhere : (if String.prefix "deb" (String c s) then Some "deb" else None)
                  = Some g →
                  (∃ rest, String c s = g +:+ rest) ∧
                  has_char newline g = false ∧ ends_with "deb" g = true).
  { destruct (String.prefix "deb" (String c s)) eqn:Hp; [| discriminate].
    intros E. injection E as <-. apply prefix_iff in Hp.
    split; [exact Hp | split; reflexivity]. }
  destruct (Ascii.eqb c newline) eqn:Hc; [exact Hhere |].
  destruct (match_dot_star_deb s) as [g'|]; [| exact Hhere].
  intros E. injection E as <-.
  destruct (IH g' eq_refl) as ([rest ->] & Hnl & Hend).
  split; [exists rest; reflexivity |].
  split; [rewrite has_char_cons, Hc, Hnl; reflexivity |].
  rewrite ends_with_cons, Hend, orb_true_r. reflexivity.
Qed.

Lemma match_dot_star_deb_some (g rest : string) :
  has_char newline g = false → ends_with "deb" g = true →
  match_dot_star_deb (g +:+ rest) ≠ None.
Proof.
  induction g as [|c g IH]; [discriminate |].
  rewrite has_char_cons, ends_with_cons. intros Hnl Hend.
  apply orb_false_elim in Hnl as [Hc Hg].
  change (String c g +:+ rest) with (String c (g +:+ rest)).
  cbn [match_dot_star_deb]. rewrite Hc.
  destruct (match_dot_star_deb (g +:+ rest)) eqn:Htail; [discriminate |].
  destruct (ends_with "deb" g) eqn:Hends.
  - exfalso. exact (IH Hg eq_refl eq_refl).
  - rewrite orb_false_r in Hend. apply String.eqb_eq in Hend.
    injection Hend as <- <-.
    change (String "d" ("eb" +:+ rest)) with ("deb" +:+ rest).
    rewrite (proj2 (prefix_iff "deb" ("deb" +:+ rest))) by eauto.
    discriminate.
Qed.

Lemma match_deb_name_some (dir tail : string) :
  has_char newline dir = false → match_dot_star_deb tail ≠ None →
  match_deb_name (dir +:+ String "/" tail) ≠ None.
Proof.
  intros Hd Ht. induction dir as [|c dir IH].
  - change (EmptyString +:+ String "/" tail) with (String "/" tail).
    cbn [match_deb_name]. destruct (match_deb_name tail); [discriminate |].
    exact Ht.
  - rewrite has_char_cons in Hd. apply orb_false_elim in Hd as [Hc Hd].
    change (String c dir +:+ String "/" tail)
      with (String c (dir +:+ String "/" tail)).
    cbn [match_deb_name]. rewrite Hc.
    destruct (match_deb_name (dir +:+ String "/" tail)) eqn:E;
      [discriminate | exfalso; exact (IH Hd eq_refl)].
Qed.

(** What the group takes after the last usable slash holds no slash. *)
Lemma match_dot_star_deb_no_slash (s g : string) :
  match_deb_name s = None → match_dot_star_deb s = Some g →
  has_char "/" g = false.
Proof.
  intros Hnone Hg.
  destruct (match_dot_star_deb_inv _ _ Hg) as ([rest ->] & Hnl & Hend).
  destruct (has_char "/" g) eqn:Hslash; [| reflexivity]. exfalso.
  destruct (basename_split _ Hslash) as (dir & E & Hb).
  rewrite E in Hnl, Hend, Hnone.
  rewrite has_char_app, has_char_cons in Hnl.
  apply orb_false_elim in Hnl as [Hd Hnl].
  apply orb_false_elim in Hnl as [_ Hbn].
  pose proof (ends_with_deb_after_slash _ _ Hend Hb) as Hbend.
  rewrite append_assoc in Hnone.
  change (String "/" (basename g) +:+ rest)
    with (String "/" (basename g +:+ rest)) in Hnone.
  revert Hnone. apply match_deb_name_some; [exact Hd |].
  apply match_dot_star_deb_some; assumption.
Qed.

Lemma match_deb_name_inv (s name : string) :
  match_deb_name s = Some name →
  has_char "/" name = false ∧ has_char newline name = false ∧
  ends_with "deb" name = true.
Proof.
  revert name. induction s as [|c s IH]; intros name; [discriminate |].
  cbn [match_deb_name].
  destruct (Ascii.eqb c newline) eqn:Hc.
  - apply Ascii.eqb_eq in Hc. subst c. discriminate.
  - destruct (match_deb_name s) as [g|] eqn:Hdeep.
    + intros E. injection E as <-. apply IH. reflexivity.
    + destruct (Ascii.eqb c "/"); [| discriminate]. intros Hg.
      split; [exact (match_dot_star_deb_no_slash _ _ Hdeep Hg) |].
      apply (match_dot_star_deb_inv _ _ Hg).
Qed.

(** X8: the path that [_download_package] writes and returns is
    [os.path.join(dest, name)] for a name without a slash that ends in
    [deb], hence a path below [dest]: no [Filename] of a control entry,
    whatever slashes or dots it holds, takes the payload out of the
    destination directory. *)
Theorem payload_stays_below_dest `{Collaborators} self package dest w path w' :
  _download_package self package dest w = (Return path, w') →
  ∃ name,
    path = path_join dest name ∧
    has_char "/" name = false ∧ ends_with "deb" name = true ∧
    under dest path = true.
Proof.
  intros E.
  destruct (download_package_returns_inv _ _ _ _ _ _ E)
    as (full_name & name & data & algorithm & _ & Hm & _ & _ & -> & _).
  destruct (match_deb_name_inv _ _ Hm) as (Hslash & _ & Hend).
  exists name. split; [reflexivity |]. split; [exact Hslash |].
  split; [exact Hend |]. apply under_path_join.
  destruct name as [|c name]; [reflexivity |].
  rewrite has_char_cons in Hslash. apply orb_false_elim in Hslash as [Hc _].
  cbn [String.prefix]. destruct (ascii_dec "/" c) as [<- | _];
    [discriminate | reflexivity].
Qed.

Lemma payload_stays_below_dest_witness :
  let _ := Fixture.collaborators Fixture.traversal in
  (_download_package (Fixture.downloader Fixture.repository None) Fixture.evil
     "/tmp/out" Fixture.w0).1 = Return "/tmp/out/evil.deb" ∧
  ∃ name,
    "/tmp/out/evil.deb" = path_join "/tmp/out" name ∧
    has_char "/" name = false ∧ ends_with "deb" name = true ∧
    under "/tmp/out" "/tmp/out/evil.deb" = true.
Proof.
  intros env. split; [vm_compute; reflexivity |].
  apply (payload_stays_below_dest
           (Fixture.downloader Fixture.repository None) Fixture.evil
           "/tmp/out" Fixture.w0 "/tmp/out/evil.deb"
           (snd (_download_package
                   (Fixture.downloader Fixture.repository None) Fixture.evil
                   "/tmp/out" Fixture.w0))).
  vm_compute. reflexivity.
Defined.

(** *** The list of prefixes *)



(** ** The names of the commands *)

Lemma derive_app (base : pyclass) (names : list string) (name : string) :
  derive base (names ++ [name]) = Subclass name [derive base names].
Proof.
  revert base. induction names as [|n names IH]; intros base; [reflexivity |].
  simpl. apply IH.
Qed.

Lemma append_nil_r (s : string) : s +:+ "" = s.
Proof.
  induction s as [|c s IH]; [reflexivity |].
  change (String c (s +:+ "") = String c s). rewrite IH. reflexivity.
Qed.

Lemma separated_app `{Python} (separator : string) (names : list string)
    (name : string) :
  separated separator (names ++ [name])
    = separated separator names +:+ separator +:+ lower name.
Proof.
  induction names as [|n names IH]; cbn [app separated].
  - rewrite append_nil_r. reflexivity.
  - rewrite IH, !append_assoc. reflexivity.
Qed.

Lemma lower_EdiCommand `{Python} : lower "EdiCommand" = "edicommand".
Proof. apply (lower_ascii "EdiCommand"). reflexivity. Qed.

Lemma compose_command_name_derive `{Python} (base : pyclass)
    (names : list string) :
  compose_command_name (derive base names) =
  match compose_command_name base with
  | Value parent => Value (parent +:+ separated "." names)
  | AssertionError => AssertionError
  end.
Proof.
  induction names as [|name names IH] using rev_ind.
  - cbn [derive separated].
    destruct (compose_command_name base) as [parent|]; [| reflexivity].
    rewrite append_nil_r. reflexivity.
  - rewrite derive_app, separated_app. cbn [compose_command_name].
    rewrite IH. destruct (compose_command_name base) as [parent|];
      [| reflexivity].
    rewrite !append_assoc. reflexivity.
Qed.

(** A class with a command name descends from [EdiCommand] through
    classes of one base each. *)
Lemma compose_command_name_inv `{Python} :
  ∀ cls name, compose_command_name cls = Value name →
    ∃ names, cls = derive EdiCommand names.
Proof.
  fix IH 1. intros cls name.
  destruct cls as [| |n bases]; [discriminate | |].
  - intros _. exists []. reflexivity.
  - destruct bases as [|base [|other bases]]; [discriminate | | discriminate].
    cbn [compose_command_name].
    destruct (compose_command_name base) as [parent|] eqn:Hbase;
      [| discriminate].
    intros _. destruct (IH base parent Hbase) as [names ->].
    exists (names ++ [n]). rewrite derive_app. reflexivity.
Qed.

(** X10: [compose_command_name] yields a name exactly for the classes
    that descend from [EdiCommand] through classes with one base each,
    and the name then is [edicommand] followed by a dot and the name of
    every class on the way down as [str.lower()] gives it (for a name
    with letters outside ASCII, what the interpreter makes of them); for
    any other class (one with several bases or none on the way up, or one
    that does not descend from [EdiCommand]) an assertion fails. *)
Theorem command_name_of_single_inheritance `{Python} (cls : pyclass) :
  (∀ names, cls = derive EdiCommand names →
     compose_command_name cls = Value ("edicommand" +:+ separated "." names)) ∧
  ((∀ names, cls ≠ derive EdiCommand names) ↔
     compose_command_name cls = AssertionError).
Proof.
  split.
  - intros names ->. rewrite compose_command_name_derive.
    cbn [compose_command_name class_name]. rewrite lower_EdiCommand.
    reflexivity.
  - split.
    + intros Hnot. destruct (compose_command_name cls) as [name|] eqn:E;
        [| reflexivity].
      destruct (compose_command_name_inv _ _ E) as [names ->].
      exfalso. exact (Hnot names eq_refl).
    + intros E names ->. rewrite compose_command_name_derive in E.
      discriminate.
Qed.

Lemma command_name_of_single_inheritance_witness :
  let _ := Fixture.interpreter in
  compose_command_name (Subclass "Configure" [Subclass "Lxc" [EdiCommand]])
    = Value "edicommand.lxc.configure" ∧
  compose_command_name
    (Subclass "Configure" [Subclass "Lxc" [EdiCommand]; object_])
    = AssertionError.
Proof.
  intros env. split.
  - exact (proj1 (command_name_of_single_inheritance
                    (Subclass "Configure" [Subclass "Lxc" [EdiCommand]]))
             ["Lxc"; "Configure"] eq_refl).
  - apply (proj1 (proj2 (command_name_of_single_inheritance
             (Subclass "Configure" [Subclass "Lxc" [EdiCommand]; object_])))).
    intros names. destruct names as [|n names] using rev_ind;
      [discriminate |].
    rewrite derive_app. discriminate.
Defined.

Lemma replace_char_app (a b : ascii) (s t : string) :
  replace_char a b (s +:+ t) = replace_char a b s +:+ replace_char a b t.
Proof.
  induction s as [|c s IH]; [reflexivity |].
  change (String c s +:+ t) with (String c (s +:+ t)).
  cbn [replace_char]. rewrite IH. reflexivity.
Qed.

Lemma replace_char_absent (a b : ascii) (s : string) :
  has_char a s = false → replace_char a b s = s.
Proof.
  induction s as [|c s IH]; [reflexivity |].
  rewrite has_char_cons. intros Hs. apply orb_false_elim in Hs as [Hc Hs].
  cbn [replace_char]. rewrite Hc, (IH Hs). reflexivity.
Qed.

Lemma replace_char_removes (a b : ascii) (s : string) :
  a ≠ b → has_char a (replace_char a b s) = false.
Proof.
  intros Hne. induction s as [|c s IH]; [reflexivity |].
  cbn [replace_char]. rewrite has_char_cons, IH, orb_false_r.
  destruct (Ascii.eqb c a) eqn:Hc; [| exact Hc].
  apply Ascii.eqb_neq. congruence.
Qed.

Lemma lower_char_dot (c : ascii) :
  Ascii.eqb (lower_char c) "." = Ascii.eqb c ".".
Proof.
  destruct c as [[] [] [] [] [] [] [] []]; vm_compute; reflexivity.
Qed.

Lemma has_char_dot_lower (s : string) :
  has_char "." (ascii_lower s) = has_char "." s.
Proof.
  induction s as [|c s IH]; [reflexivity |].
  cbn [ascii_lower]. rewrite !has_char_cons, lower_char_dot, IH. reflexivity.
Qed.

Lemma replace_separated `{Python} (b : ascii) (names : list string) :
  Forall (λ name, has_char "." (lower name) = false) names →
  replace_char "." b (separated "." names)
    = separated (String b EmptyString) names.
Proof.
  induction 1 as [|name names Hname _ IH]; [reflexivity |].
  cbn [separated]. rewrite !replace_char_app, IH.
  rewrite (replace_char_absent "." b (lower name)) by exact Hname.
  reflexivity.
Qed.

(** X11: for a command class below [EdiCommand] whose lower-cased class
    names hold no dot, the command line string is [edicommand] and the
    lower-cased class names separated by blanks, and the file name prefix
    the same with underscores. A class name of ASCII characters without
    a dot has a lower-cased name without a dot. For every class, neither
    of the two strings holds a dot. *)
Theorem cli_string_and_file_prefix `{Python} (names : list string) :
  Forall (λ name, has_char "." (lower name) = false) names →
  _get_cli_command_string (derive EdiCommand names)
    = Value ("edicommand" +:+ separated " " names) ∧
  _get_command_file_name_prefix (derive EdiCommand names)
    = Value ("edicommand" +:+ separated "_" names) ∧
  (∀ name, is_ascii name = true → has_char "." name = false →
           has_char "." (lower name) = false) ∧
  (∀ cls s, (_get_cli_command_string cls = Value s ∨
             _get_command_file_name_prefix cls = Value s) →
            has_char "." s = false).
Proof.
  intros Hnames.
  unfold _get_cli_command_string, _get_command_file_name_prefix,
    _get_command_name.
  rewrite compose_command_name_derive.
  cbn [compose_command_name class_name]. rewrite lower_EdiCommand.
  rewrite !replace_char_app, !replace_separated by exact Hnames.
  split; [reflexivity |]. split; [reflexivity |]. split.
  - intros name Ha Hdot. rewrite (lower_ascii name Ha), has_char_dot_lower.
    exact Hdot.
  - intros cls s. destruct (compose_command_name cls) as [name|].
    + intros [E | E]; injection E as <-; apply replace_char_removes;
        discriminate.
    + intros [E | E]; discriminate.
Qed.

Lemma cli_string_and_file_prefix_witness :
  let _ := Fixture.interpreter in
  _get_cli_command_string (Subclass "Configure" [Subclass "Lxc" [EdiCommand]])
    = Value "edicommand lxc configure" ∧
  _get_command_file_name_prefix
    (Subclass "Configure" [Subclass "Lxc" [EdiCommand]])
    = Value "edicommand_lxc_configure".
Proof.
  intros env.
  destruct (cli_string_and_file_prefix ["Lxc"; "Configure"])
    as (Hcli & Hprefix & _).
  - repeat constructor.
  - split; [exact Hcli | exact Hprefix].
Defined.

(** ** Packing and unpacking *)










(** ** Configuring a container *)

(** X14: with an introspection method, [Configure.run] sets up the parser,
    prints what the method returns and returns the container name; however
    the call ends, it takes no other step than these two: the container
    is not launched, no playbook is run and no profile is applied. *)
Theorem configure_introspection_takes_no_action `{Lxd} container_name
    config_file method trace :
  (∃ added,
     (Configure_run container_name config_file (Some method) trace).2
       = trace ++ added ∧
     Forall (λ s, s = SetupParser config_file ∨ ∃ text, s = Print text) added) ∧
  (∀ text, setup_parser config_file = Return () → method = Return text →
     Configure_run container_name config_file (Some method) trace
       = (Return container_name,
          trace ++ [SetupParser config_file; Print text])).
Proof.
  unfold Configure_run, call, mbind, ST_bind, mret, ST_ret. split.
  - assert (Hsetup : Forall (λ s, s = SetupParser config_file
                                  ∨ ∃ text, s = Print text)
                       [SetupParser config_file])
      by (constructor; [left; reflexivity | constructor]).
    destruct (setup_parser config_file) as [[]|msg|e];
      [| exists [SetupParser config_file]; split; [reflexivity | exact Hsetup] ..].
    destruct method as [text|msg|e];
      [exists [SetupParser config_file; Print text]
      | exists [SetupParser config_file] ..];
      (split; [cbn [snd]; rewrite <- ?app_assoc; reflexivity |]);
      try exact Hsetup.
    constructor; [left; reflexivity |].
    constructor; [right; eexists; reflexivity | constructor].
  - intros text -> ->. cbn. rewrite <- app_assoc. reflexivity.
Qed.

Lemma configure_introspection_takes_no_action_witness :
  let lxd : Lxd :=
    {| setup_parser := λ _, Return ();
       launch_run := λ _ _, Return ();
       playbooks_run_all := λ _ _, Return ();
       create_host_folders := Return ();
       verify_container_mountpoints := λ _, Return ();
       profile_run := λ _ _, Return ["default"];
       apply_profiles := λ _ _, Return () |} in
  Configure_run "box" "config.yml" (Some (Return "lxc_profiles: []")) []
    = (Return "box", [SetupParser "config.yml"; Print "lxc_profiles: []"]).
Proof.
  intros lxd.
  destruct (configure_introspection_takes_no_action
              "box" "config.yml" (Return "lxc_profiles: []") [])
    as [_ Hrun].
  apply (Hrun "lxc_profiles: []"); reflexivity.
Defined.

(** X15: without an introspection method, [Configure.run] takes its steps
    in one order: parser, launch, playbooks, host folders, mount points,
    profiles, applying them, success message. What it has done when it
    ends is always a start of that list; it ends at the first step whose
    collaborator fails, so nothing is configured in a container that
    failed to launch and no success is printed after a failure. It
    returns, and then the container name, exactly when all steps were
    taken; the profiles applied are those that [Profile().run] returned
    with the post-configuration profiles included. *)
Theorem configure_takes_its_steps_in_order `{Lxd} container_name config_file
    trace :
  let profiles :=
    match profile_run config_file true with Return p => p | _ => [] end in
  ∃ added,
    (Configure_run container_name config_file None trace).2 = trace ++ added ∧
    added `prefix_of` configuration_steps container_name config_file profiles ∧
    ((Configure_run container_name config_file None trace).1
       = Return container_name
     ↔ added = configuration_steps container_name config_file profiles) ∧
    (∀ x, (Configure_run container_name config_file None trace).1 = Return x →
          x = container_name).
Proof.
  intros profiles. subst profiles.
  unfold Configure_run, configuration_steps, call, mbind, ST_bind, mret, ST_ret.
  destruct (setup_parser config_file) as [[]|msg|e]; [| configure_stops ..].
  destruct (launch_run container_name config_file) as [[]|msg|e];
    [| configure_stops ..].
  destruct (playbooks_run_all container_name "lxd") as [[]|msg|e];
    [| configure_stops ..].
  destruct create_host_folders as [[]|msg|e]; [| configure_stops ..].
  destruct (verify_container_mountpoints container_name) as [[]|msg|e];
    [| configure_stops ..].
  destruct (profile_run config_file true) as [profiles|msg|e];
    [| configure_stops ..].
  destruct (apply_profiles container_name profiles) as [[]|msg|e];
    [| configure_stops ..].
  eexists. cbn [fst snd].
  split; [rewrite <- ?app_assoc; reflexivity |].
  split; [exists []; reflexivity |].
  split; [split; reflexivity |].
  intros x E. injection E as <-. reflexivity.
Qed.

Lemma configure_takes_its_steps_in_order_witness :
  let lxd : Lxd :=
    {| setup_parser := λ _, Return ();
       launch_run := λ _ _, Exit "launch failed";
       playbooks_run_all := λ _ _, Return ();
       create_host_folders := Return ();
       verify_container_mountpoints := λ _, Return ();
       profile_run := λ _ _, Return ["default"];
       apply_profiles := λ _ _, Return () |} in
  Configure_run "box" "config.yml" None []
    = (Exit "launch failed",
       [SetupParser "config.yml"; LaunchRun "box" "config.yml"]) ∧
  ∃ added,
    (Configure_run "box" "config.yml" None []).2 = added ∧
    added `prefix_of` configuration_steps "box" "config.yml" ["default"].
Proof.
  intros lxd. split; [reflexivity |].
  destruct (configure_takes_its_steps_in_order "box" "config.yml" [])
    as (added & E & Hprefix & _).
  exists added. split; [exact E | exact Hprefix].
Defined.

(** ** Further properties of the stages *)

(** X16: a candidate whose fetch gives nothing (a reply with a status
    other than 200, or with an empty body) is no error: the lookup goes on
    with the next candidate and ends as it would without that candidate,
    with its request added and its prefix left free for a later
    candidate. A request that gets no reply at all ends the lookup with
    the exception of [requests.get]. *)
Theorem missing_index_is_passed_over `{Collaborators} self package_name
    package_file rest downloaded w name prefix :
  package_file !! "name" = Some name →
  candidate_prefix name = Some prefix →
  prefix ∉ downloaded →
  truthy (served (index_url self name)) = false →
  (answered (index_url self name) →
   _find_package_loop self package_name (package_file :: rest) downloaded w
     = _find_package_loop self package_name rest downloaded
         (add_request (index_url self name) w)) ∧
  (∀ e, connection_error (index_url self name) = Some e →
   _find_package_loop self package_name (package_file :: rest) downloaded w
     = (Raise e, add_request (index_url self name) w)).
Proof.
  intros Hn Hp Hin Hs. cbn [_find_package_loop]. rewrite bind_run.
  rewrite find_package_body_run, Hn, Hp.
  rewrite bool_decide_eq_false_2 by assumption. cbv zeta.
  split; [intros Ha; unfold answered in Ha | intros e Ha]; rewrite Ha;
    (destruct (served (index_url self name)) as [[|x data]|];
     [reflexivity | discriminate | reflexivity]).
Qed.

Lemma missing_index_is_passed_over_witness :
  let _ := Fixture.collaborators Fixture.plain in
  _find_package_loop (Fixture.downloader Fixture.repository None) "curl"
    [Fixture.row "sha256" Fixture.xz_name "INDEXXZ";
     Fixture.row "sha256" Fixture.gz_name "INDEX"] [] Fixture.w0
    = _find_package_loop (Fixture.downloader Fixture.repository None) "curl"
        [Fixture.row "sha256" Fixture.gz_name "INDEX"] []
        (add_request Fixture.xz_url Fixture.w0).
Proof.
  intros env.
  apply (missing_index_is_passed_over
           (Fixture.downloader Fixture.repository None) "curl"
           (Fixture.row "sha256" Fixture.xz_name "INDEXXZ")
           [Fixture.row "sha256" Fixture.gz_name "INDEX"] [] Fixture.w0
           Fixture.xz_name "main_binary-amd64_").
  - vm_compute. reflexivity.
  - vm_compute. reflexivity.
  - intros Hin. apply elem_of_nil in Hin. contradiction.
  - vm_compute. reflexivity.
  - reflexivity.
Defined.

Lemma path_join_inj (dir a c : string) :
  String.prefix "/" a = false → String.prefix "/" c = false →
  path_join dir a = path_join dir c → a = c.
Proof.
  intros Ha Hc. unfold path_join. rewrite Ha, Hc.
  destruct (negb (truthy dir) || ends_with_slash dir); intros E.
  - exact (append_inv_head _ _ _ E).
  - apply append_inv_head in E. injection E as E. exact E.
Qed.

(** X17: when the first stage of [download] returns, the release file it
    names holds what the repository served: the body of [InRelease] if
    that was served with a body, and no signature file is named;
    otherwise the body of [Release], and then, with a key, the signature
    file holds the body of [Release.gpg]. Both files lie below the
    temporary directory. *)
Theorem release_stage_stores_what_it_fetched `{Collaborators} self tempdir w
    release_file signature_file w1 :
  download_release self tempdir w
    = (Return (release_file, signature_file), w1) →
  under tempdir release_file = true ∧
  ((∃ data, served (base_url self +:+ "/InRelease") = Some data ∧ data ≠ [] ∧
            release_file = path_join tempdir "InRelease" ∧
            signature_file = None ∧
            files w1 !! release_file = Some data) ∨
   (truthy (served (base_url self +:+ "/InRelease")) = false ∧
    ∃ data, served (base_url self +:+ "/Release") = Some data ∧
            release_file = path_join tempdir "Release" ∧
            signature_file = Some (path_join tempdir "Release.gpg") ∧
            files w1 !! release_file = Some data ∧
            (truthy (_repository_key self) = true →
             ∃ signature,
               served (base_url self +:+ "/Release.gpg") = Some signature ∧
               files w1 !! path_join tempdir "Release.gpg" = Some signature))).
Proof.
  rewrite download_release_run. cbv zeta.
  assert (Hne : path_join tempdir "Release.gpg" ≠ path_join tempdir "Release").
  { intros Heq. apply path_join_inj in Heq; [discriminate | reflexivity ..]. }
  reply_cases; intros E; try discriminate E; injection E as <- <- <-;
    (split; [apply under_path_join; reflexivity |]);
    first
      [ left; eexists; (split; [reflexivity |]); (split; [discriminate |]);
        (split; [reflexivity |]); (split; [reflexivity |]);
        cbn [add_file add_request files]; apply lookup_insert_eq
      | right; (split; [reflexivity |]); eexists; (split; [reflexivity |]);
        (split; [reflexivity |]); (split; [reflexivity |]);
        cbn [add_file add_request files];
        (split;
         [ first [ apply lookup_insert_eq
                 | rewrite lookup_insert_ne by exact Hne;
                   apply lookup_insert_eq ]
         | first [ intros Hfalse; discriminate Hfalse
                 | intros _; eexists;
                   (split; [reflexivity | apply lookup_insert_eq]) ] ]) ].
Qed.

Lemma release_stage_stores_what_it_fetched_witness :
  let _ := Fixture.collaborators Fixture.detached in
  ∃ w1,
    download_release (Fixture.downloader Fixture.repository Fixture.key)
      "/tmp/tmpedi" Fixture.w0
      = (Return ("/tmp/tmpedi/Release", Some "/tmp/tmpedi/Release.gpg"), w1) ∧
    files w1 !! "/tmp/tmpedi/Release" = Some (Fixture.b "RELEASE") ∧
    files w1 !! "/tmp/tmpedi/Release.gpg" = Some (Fixture.b "SIGNATURE").
Proof.
  intros env. eexists. split; [vm_compute; reflexivity |].
  destruct (release_stage_stores_what_it_fetched
              (Fixture.downloader Fixture.repository Fixture.key)
              "/tmp/tmpedi" Fixture.w0 "/tmp/tmpedi/Release"
              (Some "/tmp/tmpedi/Release.gpg")
              (snd (download_release
                      (Fixture.downloader Fixture.repository Fixture.key)
                      "/tmp/tmpedi" Fixture.w0)))
    as [_ [(data & _ & _ & _ & Hnone & _) | (_ & data & Hs & _ & _ & Hf & Hsig)]];
    [vm_compute; reflexivity | discriminate |].
  split; [vm_compute; reflexivity |].
  destruct (Hsig eq_refl) as (signature & Hserved & Hfile).
  vm_compute. reflexivity.
Defined.

(** X18: when the release documents are fetched, the signature check (or
    the warning) is passed, the release file parses, the lookup finds a
    section, the payload named by its [Filename] is served and fits the
    recorded checksum, and the file [os.path.join(dest, name)] can be
    opened for writing, then [download] returns that path, the file at
    that path holds the payload (the destination not being the temporary
    directory), and the request for the payload is the last one of the
    call. When the file cannot be opened, as for a destination directory
    that does not exist, [download] ends with the exception of [open]
    and leaves no file at that path that was not there before. *)
Theorem download_succeeds_when_its_stages_do `{Collaborators} self package_name
    dest w0 release_file signature_file wa wb package_files wc wd package
    full_name name data algorithm :
  package_name ≠ "" →
  download_release self (mkdtemp (files w0)) w0
    = (Return (release_file, signature_file), wa) →
  download_authenticate self package_name (mkdtemp (files w0)) release_file
    signature_file wa = (Return (), wb) →
  _parse_release_file self release_file wb = (Return package_files, wc) →
  _find_package_in_package_files self package_name package_files wc
    = (Return (Some package), wd) →
  package !! "Filename" = Some full_name →
  match_deb_name full_name = Some name →
  served (payload_url self full_name) = Some data →
  recorded_checksum (_checksum_algorithms self) package
    = Some (algorithm, hexdigest (lower algorithm) data) →
  under (mkdtemp (files w0)) (path_join dest name) = false →
  (open_error (path_join dest name) = None →
   ∃ w',
     download self (Some package_name) dest w0
       = (Return (path_join dest name), w') ∧
     files w' !! path_join dest name = Some data ∧
     requests w' = requests wd ++ [payload_url self full_name]) ∧
  (∀ e, open_error (path_join dest name) = Some e →
   ∃ w',
     download self (Some package_name) dest w0 = (Raise e, w') ∧
     files w' !! path_join dest name = files wd !! path_join dest name ∧
     requests w' = requests wd ++ [payload_url self full_name]).
Proof.
  intros Hn Hrel Hauth Hparse Hfind Hf Hm Hs Hr Hout.
  split.
  - intros Ho.
    exists (remove_tree (mkdtemp (files w0))
              (add_file (path_join dest name) data
                 (add_request (payload_url self full_name) wd))).
    split; [| split].
    + rewrite (download_after_authenticate _ _ _ _ _ _ _ _ Hn Hrel Hauth).
      rewrite (locate_found _ _ _ _ _ _ _ _ _ Hparse Hfind).
      rewrite download_package_run, Hf, Hm. cbv zeta.
      rewrite Hs, Hr, String.eqb_refl, Ho. reflexivity.
    + rewrite remove_tree_lookup, Hout. apply lookup_insert_eq.
    + reflexivity.
  - intros e Ho.
    exists (remove_tree (mkdtemp (files w0))
              (add_request (payload_url self full_name) wd)).
    split; [| split].
    + rewrite (download_after_authenticate _ _ _ _ _ _ _ _ Hn Hrel Hauth).
      rewrite (locate_found _ _ _ _ _ _ _ _ _ Hparse Hfind).
      rewrite download_package_run, Hf, Hm. cbv zeta.
      rewrite Hs, Hr, String.eqb_refl, Ho. reflexivity.
    + rewrite remove_tree_lookup, Hout. reflexivity.
    + reflexivity.
Qed.

Lemma download_succeeds_when_its_stages_do_witness :
  let _ := Fixture.collaborators Fixture.detached in
  ∃ w',
    download (Fixture.downloader Fixture.repository Fixture.key) (Some "curl")
      "/tmp/out" Fixture.w0 = (Return "/tmp/out/curl_7.74.0_amd64.deb", w') ∧
    files w' !! "/tmp/out/curl_7.74.0_amd64.deb" = Some (Fixture.b "DEB").
Proof.
  intros env.
  pose (self := Fixture.downloader Fixture.repository Fixture.key).
  pose (wa := snd (download_release self "/tmp/tmpedi" Fixture.w0)).
  pose (wb := snd (download_authenticate self "curl" "/tmp/tmpedi"
                     "/tmp/tmpedi/Release" (Some "/tmp/tmpedi/Release.gpg") wa)).
  destruct (download_succeeds_when_its_stages_do self "curl" "/tmp/out"
              Fixture.w0 "/tmp/tmpedi/Release" (Some "/tmp/tmpedi/Release.gpg")
              wa wb [Fixture.row "sha256" Fixture.gz_name "INDEX"] wb
              (add_request Fixture.gz_url wb) Fixture.curl
              "pool/main/c/curl/curl_7.74.0_amd64.deb" "curl_7.74.0_amd64.deb"
              (Fixture.b "DEB") "SHA256")
    as [Hwritten _];
    try (vm_compute; reflexivity); [discriminate |].
  destruct (Hwritten eq_refl) as (w' & E & Hfile & _).
  exists w'. split; [exact E | exact Hfile].
Defined.
